(** * Traewelling export tool: a shallow embedding of [fetchTraewellingData.js]

    The script fetches the authenticated user's profile, pages through the
    user's statuses, computes a date range and month statistics, reshapes
    profile and statuses into the export format and writes one JSON file.

    The embedding follows the source: JavaScript values as they come out of
    [JSON.parse], property reads that throw on [null]/[undefined], the [||]
    defaulting operator, template literals and [new Date] that turn a value
    into a primitive one and throw where that cannot be done, spread calls
    that throw beyond the engine's argument limit, [Date] time values,
    [JSON.stringify] with a two-space indent, and the [run] function as a
    computation over a log of effects (requests, console lines, delays, file
    writes). *)

From Stdlib Require Import ZArith List String Ascii Bool Lia.
From Stdlib Require Import PrimFloat FloatOps SpecFloat.
From Stdlib Require Import DecimalString.
From Stdlib Require Import Sorted Permutation.
Import ListNotations.
Local Open Scope string_scope.
Local Open Scope list_scope.
Local Open Scope Z_scope.
Set Warnings "-register-all".

Notation "s1 +++ s2" := (String.append s1 s2)
  (at level 60, right associativity).

(** ** JavaScript values *)

(** A value as [JSON.parse] returns it, plus [undefined], which a read of a
    missing property yields.  Numbers are IEEE-754 binary64, as in the
    language.  The fields of an object are listed in own-property order,
    each key once. *)
Inductive value : Type :=
| VUndefined
| VNull
| VBool (b : bool)
| VNum (n : float)
| VStr (s : string)
| VArr (items : list value)
| VObj (fields : list (string * value)).

(** What a thrown JavaScript error is in this program: a [TypeError] from a
    property read on [null]/[undefined]; the [TypeError] of turning into
    text or into a number an object that cannot be turned into a primitive
    value; a [RangeError], of [Date.prototype.toISOString] on an invalid
    date or of a call with more arguments than the engine takes; or the
    error a rejected [fetchJSON] promise carries. *)
Inductive exn : Type :=
| TypeError (reading : string)
| ConversionError
| RangeError
| Rejected (message : string).

Inductive result (A : Type) : Type :=
| Ok (a : A)
| Throw (e : exn).
Arguments Ok {A} a.
Arguments Throw {A} e.

Definition rbind {A B} (r : result A) (k : A -> result B) : result B :=
  match r with
  | Ok a => k a
  | Throw e => Throw e
  end.

Definition rmap {A B} (f : A -> B) (r : result A) : result B :=
  rbind r (fun a => Ok (f a)).

Declare Scope result_scope.
Delimit Scope result_scope with result.
Notation "x <- r ;; k" := (rbind r (fun x => k))
  (at level 61, r at next level, right associativity) : result_scope.

(** [xs.map(f)] where [f] may throw: elements are visited left to right and
    the first throw ends the map. *)
Fixpoint map_result {A B} (f : A -> result B) (xs : list A)
  : result (list B) :=
  match xs with
  | [] => Ok []
  | x :: rest =>
      match f x with
      | Ok y => rmap (cons y) (map_result f rest)
      | Throw e => Throw e
      end
  end.

(** Own-property lookup in a field list. *)
Fixpoint assoc (k : string) (fields : list (string * value))
  : option value :=
  match fields with
  | [] => None
  | (k', v) :: rest => if String.eqb k k' then Some v else assoc k rest
  end.

Definition nullish (v : value) : bool :=
  match v with
  | VUndefined | VNull => true
  | _ => false
  end.

(** The property read [v.k].  On [undefined] and [null] it throws a
    [TypeError]; on an object it yields the own property or [undefined].
    Numbers, booleans, strings and arrays are read through their prototypes,
    which define none of the names this program reads (it never reads
    [length] or an index through [get]), so the read yields [undefined]. *)
Definition get (v : value) (k : string) : result value :=
  match v with
  | VUndefined | VNull => Throw (TypeError k)
  | VObj fields =>
      match assoc k fields with
      | Some x => Ok x
      | None => Ok VUndefined
      end
  | _ => Ok VUndefined
  end.

(** [ToBoolean]. *)
Definition truthy (v : value) : bool :=
  match v with
  | VUndefined | VNull => false
  | VBool b => b
  | VNum n => negb (PrimFloat.is_zero n || PrimFloat.is_nan n)
  | VStr s => negb (String.eqb s EmptyString)
  | VArr _ | VObj _ => true
  end.

(** [a || b]. *)
Definition js_or (a b : value) : value :=
  if truthy a then a else b.

Definition Array_isArray (v : value) : bool :=
  match v with
  | VArr _ => true
  | _ => false
  end.

Fixpoint join (sep : string) (parts : list string) : string :=
  match parts with
  | [] => EmptyString
  | [p] => p
  | p :: rest => p +++ sep +++ join sep rest
  end.

(** ** Time values *)

(** A [Date] holds a time value: an integral number of milliseconds since
    the epoch, or NaN ([None]) for an invalid date. *)
Definition Date := option Z.

Definition maxTime : Z := 8640000000000000.

(** [TimeClip]: NaN outside the representable range. *)
Definition TimeClip (t : option Z) : Date :=
  match t with
  | Some z => if Z.abs z <=? maxTime then Some z else None
  | None => None
  end.

(** A binary64 truncated towards zero; [None] for NaN and the infinities
    (which [TimeClip] sends to NaN alike). *)
Definition float_trunc (f : float) : option Z :=
  match Prim2SF f with
  | S754_zero _ => Some 0
  | S754_finite s m e =>
      let mag := if 0 <=? e then Z.pos m * 2 ^ e
                 else Z.pos m / 2 ^ (- e) in
      Some (if s then - mag else mag)
  | S754_infinity _ | S754_nan => None
  end.

(** [Math.min] and [Math.max] on the time values of the dates they are
    given as arguments: NaN as soon as one argument is NaN.  With no
    argument at all the results are the infinities, which the [Date]
    constructor applied next turns into NaN; they are [None] here. *)
Fixpoint Math_min (ds : list Date) : option Z :=
  match ds with
  | [] => None
  | [d] => d
  | d :: rest =>
      match d, Math_min rest with
      | Some a, Some b => Some (Z.min a b)
      | _, _ => None
      end
  end.

Fixpoint Math_max (ds : list Date) : option Z :=
  match ds with
  | [] => None
  | [d] => d
  | d :: rest =>
      match d, Math_max rest with
      | Some a, Some b => Some (Z.max a b)
      | _, _ => None
      end
  end.

(** The call [f(...xs)]: the spread passes one argument per element, and
    the call throws a [RangeError] when there are more of them than the
    engine takes in one call. *)
Definition spread {A B} (argumentLimit : nat) (f : list A -> B)
    (xs : list A) : result B :=
  if (List.length xs <=? argumentLimit)%nat then Ok (f xs)
  else Throw RangeError.

(** Decimal digits of a non-negative integer, left-padded with zeros to at
    least [width] characters. *)
Fixpoint zeros (n : nat) : string :=
  match n with
  | O => EmptyString
  | S m => String "0" (zeros m)
  end.

Definition digits (z : Z) : string :=
  NilZero.string_of_uint (N.to_uint (Z.to_N z)).

Definition padStart (width : nat) (s : string) : string :=
  zeros (width - String.length s) +++ s.

(** Civil date (year, month, day) of a day number counted from 1970-01-01
    in the proleptic Gregorian calendar. *)
Definition civil_from_days (day : Z) : Z * Z * Z :=
  let z := day + 719468 in
  let era := z / 146097 in
  let doe := z - era * 146097 in
  let yoe := (doe - doe / 1460 + doe / 36524 - doe / 146096) / 365 in
  let doy := doe - (365 * yoe + yoe / 4 - yoe / 100) in
  let mp := (5 * doy + 2) / 153 in
  let d := doy - (153 * mp + 2) / 5 + 1 in
  let m := if mp <? 10 then mp + 3 else mp - 9 in
  let y := yoe + era * 400 + (if m <=? 2 then 1 else 0) in
  (y, m, d).

Definition iso_year (y : Z) : string :=
  if (0 <=? y) && (y <=? 9999) then padStart 4 (digits y)
  else if y <? 0 then "-" +++ padStart 6 (digits (- y))
  else "+" +++ padStart 6 (digits y).

(** The text [toISOString] gives for a time value:
    [YYYY-MM-DDTHH:mm:ss.sssZ], with a signed six-digit year outside
    0..9999. *)
Definition iso_of_time (t : Z) : string :=
  let day := t / 86400000 in
  let ms := t mod 86400000 in
  let '(y, m, d) := civil_from_days day in
  iso_year y +++ "-" +++ padStart 2 (digits m) +++ "-"
    +++ padStart 2 (digits d) +++ "T"
    +++ padStart 2 (digits (ms / 3600000)) +++ ":"
    +++ padStart 2 (digits ((ms / 60000) mod 60)) +++ ":"
    +++ padStart 2 (digits ((ms / 1000) mod 60)) +++ "."
    +++ padStart 3 (digits (ms mod 1000)) +++ "Z".

(** [d.toISOString()]: a [RangeError] on an invalid date. *)
Definition toISOString (d : Date) : result string :=
  match d with
  | Some t => Ok (iso_of_time t)
  | None => Throw RangeError
  end.

(** ** Engine-dependent conversions *)

(** Two functions of the JavaScript engine are taken as given: the decimal
    text of a number ([Number.prototype.toString]) and [Date.parse], whose
    result on text outside the ISO format is left to the engine and whose
    result on text without offset depends on the time zone. *)
Section Engine.

Variable Number_toString : float -> string.
Variable Date_parse : string -> option Z.

(** [ToString], as a template literal applies it.  An array joins its
    elements with commas, [null] and [undefined] elements as empty text.
    An object is turned into a primitive value through its [toString] and
    [valueOf]: with the inherited ones it is ["[object Object]"]; an own
    property [toString] -- which in parsed JSON is never a function --
    hides the inherited method, [valueOf] gives no primitive, and the
    conversion throws a [TypeError]. *)
Fixpoint ToString (v : value) : result string :=
  match v with
  | VUndefined => Ok "undefined"
  | VNull => Ok "null"
  | VBool b => Ok (if b then "true" else "false")
  | VNum n => Ok (Number_toString n)
  | VStr s => Ok s
  | VArr items =>
      rmap (join ",")
        ((fix each (l : list value) : result (list string) :=
            match l with
            | [] => Ok []
            | x :: rest =>
                match (if nullish x then Ok EmptyString else ToString x) with
                | Ok text => rmap (cons text) (each rest)
                | Throw e => Throw e
                end
            end) items)
  | VObj fields =>
      match assoc "toString" fields with
      | Some _ => Throw ConversionError
      | None => Ok "[object Object]"
      end
  end.

(** [new Date(v)]: text is parsed; arrays and objects are first turned
    into a primitive value, which is their text or a [TypeError] as for
    [ToString]; everything else is taken as a number of milliseconds.  The
    result is clipped. *)
Definition new_Date (v : value) : result Date :=
  match v with
  | VUndefined => Ok None
  | VNull => Ok (TimeClip (Some 0))
  | VBool b => Ok (TimeClip (Some (if b then 1 else 0)))
  | VNum n => Ok (TimeClip (float_trunc n))
  | VStr s => Ok (TimeClip (Date_parse s))
  | VArr _ | VObj _ =>
      rmap (fun text => TimeClip (Date_parse text)) (ToString v)
  end.

(** ** [JSON.stringify(v, null, 2)] *)

Definition dquote : string := String "034"%char EmptyString.
Definition newline : string := String "010"%char EmptyString.

Definition hex_digit (n : N) : ascii :=
  if (n <? 10)%N then ascii_of_N (48 + n) else ascii_of_N (87 + n).

(** One character of a quoted JSON string.  Text is held as UTF-8 bytes;
    bytes from 128 up pass unchanged. *)
Definition quote_char (c : ascii) : string :=
  let n := N_of_ascii c in
  if (n =? 8)%N then "\b"
  else if (n =? 9)%N then "\t"
  else if (n =? 10)%N then "\n"
  else if (n =? 12)%N then "\f"
  else if (n =? 13)%N then "\r"
  else if (n =? 34)%N then "\" +++ dquote
  else if (n =? 92)%N then "\\"
  else if (n <? 32)%N then
    "\u00" +++ String (hex_digit (n / 16)) (String (hex_digit (n mod 16))
                                              EmptyString)
  else String c EmptyString.

Fixpoint quote_chars (s : string) : string :=
  match s with
  | EmptyString => EmptyString
  | String c rest => quote_char c +++ quote_chars rest
  end.

Definition quote (s : string) : string :=
  dquote +++ quote_chars s +++ dquote.

Definition gap : string := "  ".

(** The text of a value at indentation [indent]; [None] where
    [JSON.stringify] yields [undefined].  A property whose value is
    [undefined] is left out of its object; an [undefined] array element is
    written [null]. *)
Fixpoint serialize (indent : string) (v : value) : option string :=
  match v with
  | VUndefined => None
  | VNull => Some "null"
  | VBool b => Some (if b then "true" else "false")
  | VNum n => Some (if PrimFloat.is_finite n then Number_toString n
                    else "null")
  | VStr s => Some (quote s)
  | VArr items =>
      let inner := indent +++ gap in
      let parts :=
        (fix each (l : list value) : list string :=
           match l with
           | [] => []
           | x :: rest =>
               match serialize inner x with
               | Some text => text
               | None => "null"
               end :: each rest
           end) items in
      match parts with
      | [] => Some "[]"
      | _ => Some ("[" +++ newline +++ inner
                     +++ join ("," +++ newline +++ inner) parts
                     +++ newline +++ indent +++ "]")
      end
  | VObj fields =>
      let inner := indent +++ gap in
      let parts :=
        (fix each (l : list (string * value)) : list string :=
           match l with
           | [] => []
           | (k, x) :: rest =>
               match serialize inner x with
               | Some text => (quote k +++ ": " +++ text) :: each rest
               | None => each rest
               end
           end) fields in
      match parts with
      | [] => Some "{}"
      | _ => Some ("{" +++ newline +++ inner
                     +++ join ("," +++ newline +++ inner) parts
                     +++ newline +++ indent +++ "}")
      end
  end.

Definition JSON_stringify (v : value) : option string :=
  serialize EmptyString v.

End Engine.

(** ** The schema transform (the [exportData] literal) *)

Local Open Scope result_scope.

Definition get2 (v : value) (k1 k2 : string) : result value :=
  x <- get v k1 ;; get x k2.

Definition get3 (v : value) (k1 k2 k3 : string) : result value :=
  x <- get2 v k1 k2 ;; get x k3.

(** An object literal: the property values are evaluated in source order
    and the first one that throws ends the evaluation. *)
Fixpoint properties (props : list (string * result value))
  : result (list (string * value)) :=
  match props with
  | [] => Ok []
  | (k, r) :: rest =>
      v <- r ;; fields <- properties rest ;; Ok ((k, v) :: fields)
  end.

Definition object (props : list (string * result value)) : result value :=
  rmap VObj (properties props).

(** [e || d] for an expression [e] that may throw. *)
Definition or_default (e : result value) (d : value) : result value :=
  rmap (fun v => js_or v d) e.

(** A stop descriptor: [origin] and [destination] of the trip. *)
Definition stop (status : value) (which : string) : result value :=
  object
    [ ("id", get3 status "train" which "id");
      ("name", get3 status "train" which "name");
      ("latitude", get3 status "train" which "latitude");
      ("longitude", get3 status "train" which "longitude");
      ("ibnr", get3 status "train" which "ibnr");
      ("rilIdentifier", get3 status "train" which "rilIdentifier") ].

(** The callback of [allStatuses.map] at lines 191-236: one
    [{status, trip}] entry per status. *)
Definition transformStatus (status : value) : result value :=
  object
    [ ("status",
       object
         [ ("id", get status "id");
           ("body", or_default (get status "body") (VStr ""));
           ("bodyMentions", or_default (get status "bodyMentions") (VArr []));
           ("user", get status "user");
           ("username", get status "username");
           ("profilePicture", get status "profilePicture");
           ("preventIndex", get status "preventIndex");
           ("business", get status "business");
           ("visibility", get status "visibility");
           ("likes", get status "likes");
           ("liked", get status "liked");
           ("isLikable", get status "isLikable");
           ("client", get status "client");
           ("createdAt", get status "createdAt");
           ("train", get status "train");
           ("event", get status "event");
           ("userDetails", get status "userDetails");
           ("tags", or_default (get status "tags") (VArr [])) ]);
      ("trip",
       object
         [ ("id", get2 status "train" "trip");
           ("category", get2 status "train" "category");
           ("number", get2 status "train" "number");
           ("lineName", get2 status "train" "lineName");
           ("journeyNumber", get2 status "train" "journeyNumber");
           ("origin", stop status "origin");
           ("destination", stop status "destination");
           ("stopovers",
            or_default (get2 status "train" "stopovers") (VArr [])) ]) ].

(** The [meta.user] object, lines 166-186. *)
Definition exportUser (userProfile : value) : result value :=
  object
    [ ("id", get2 userProfile "data" "id");
      ("displayName", get2 userProfile "data" "displayName");
      ("username", get2 userProfile "data" "username");
      ("profilePicture", get2 userProfile "data" "profilePicture");
      ("trainDistance", get2 userProfile "data" "trainDistance");
      ("totalDistance", get2 userProfile "data" "trainDistance");
      ("trainDuration", get2 userProfile "data" "trainDuration");
      ("totalDuration", get2 userProfile "data" "trainDuration");
      ("points", get2 userProfile "data" "points");
      ("mastodonUrl", get2 userProfile "data" "mastodonUrl");
      ("privateProfile", get2 userProfile "data" "privateProfile");
      ("preventIndex", get2 userProfile "data" "preventIndex");
      ("likes_enabled", get2 userProfile "data" "likes_enabled");
      ("pointsEnabled", Ok (VBool true));
      ("userInvisibleToMe", Ok (VBool false));
      ("muted", Ok (VBool false));
      ("following", Ok (VBool false));
      ("followPending", Ok (VBool false));
      ("followedBy", Ok (VBool false)) ].

(** The [exportData] literal, lines 164-237.  [earliest] and [latest] are
    the dates computed before it; [now] is the time value [new Date()]
    reads from the clock. *)
Definition exportData (userProfile : value) (allStatuses : list value)
    (earliest latest : Date) (now : Z) : result value :=
  object
    [ ("meta",
       object
         [ ("user", exportUser userProfile);
           ("from", rmap VStr (toISOString earliest));
           ("to", rmap VStr (toISOString latest));
           ("exportedAt", rmap VStr (toISOString (Some now))) ]);
      ("data", rmap VArr (map_result transformStatus allStatuses)) ].

(** ** The run *)

(** What the program does to the outside, in order.  [Fetch] is a call of
    [fetchJSON] (with the request lines that function prints); console
    output is kept as the message and its arguments rather than as
    formatted text.  [MonthStatistics] stands for the heading and the lines
    of the per-month counts, which are computed from the dates in the
    local time zone. *)
Inductive diag : Type :=
| MissingToken
| FetchingProfile
| UserProfile (userProfile : value)
| FoundUser (userId username : value)
| FetchingPage (page : nat)
| UnexpectedFormat (statusesResponse : value)
| Retrieved (count : nat) (page : nat)
| ErrorFetchingPage (page : nat) (err : exn)
| Found (count : nat)
| SampleStatus (status : value)
| DateRangeHeader
| Earliest (iso : string)
| Latest (iso : string)
| MonthStatistics (dates : list Date)
| Done (count : nat) (outputFile : string)
| Error (err : exn).

Inductive event : Type :=
| Fetch (url : string) (params : list (string * nat))
| ConsoleLog (d : diag)
| ConsoleError (d : diag)
| Sleep (ms : Z)
| WriteFile (path : string) (content : string)
| Exit (code : Z).

(** A computation that emits events and may throw: the events emitted up
    to the throw stay emitted. *)
Definition E (A : Type) : Type := list event * result A.

Definition ret {A} (a : A) : E A := ([], Ok a).

Definition bind {A B} (m : E A) (k : A -> E B) : E B :=
  match m with
  | (tr, Ok a) => let '(tr', r) := k a in (tr ++ tr', r)
  | (tr, Throw e) => (tr, Throw e)
  end.

Definition emit (e : event) : E unit := ([e], Ok tt).

Definition lift {A} (r : result A) : E A := ([], r).

Declare Scope run_scope.
Delimit Scope run_scope with run.
Notation "x <- m ;; k" := (bind m (fun x => k))
  (at level 61, m at next level, right associativity) : run_scope.
Notation "m ;; k" := (bind m (fun _ => k))
  (at level 61, right associativity) : run_scope.

Section Run.

Variable Number_toString : float -> string.
Variable Date_parse : string -> option Z.

(** The number of arguments the engine takes in one call. *)
Variable argumentLimit : nat.

(** The network: what [await fetchJSON(url, params)] gives, the parsed
    body or the error the promise is rejected with. *)
Variable fetchJSON : string -> list (string * nat) -> result value.

(** The clock reading of [new Date()] at line 189. *)
Variable now : Z.

Definition profileUrl : string := "https://traewelling.de/api/v1/auth/user".

(** The template literal of line 102. *)
Definition statusesUrl (username : value) : result string :=
  rmap (fun name =>
          "https://traewelling.de/api/v1/user/" +++ name +++ "/statuses")
       (ToString Number_toString username).

(** The [await fetchJSON(...)] of lines 101-106 for a page: the URL is
    built, then the request is made. *)
Definition fetchPage (username : value) (page : nat) : result value :=
  (url <- statusesUrl username ;; fetchJSON url [("page", page)])%result.

Definition items_of (v : value) : list value :=
  match v with
  | VArr items => items
  | _ => []
  end.

(** The [while (hasMorePages)] loop, lines 97-132, entered with
    [hasMorePages] true.  [fuel] bounds the number of iterations; [None]
    means the bound was reached with the loop still running.  The page
    counter is a natural number.  Every error inside the body -- from the
    template literal of the URL, the request or the read of [data] -- is
    caught by the inner [catch], which logs it and leaves the loop. *)
Fixpoint paginate (fuel : nat) (username : value) (page : nat)
    (allStatuses : list value) : option (list value * list event) :=
  match fuel with
  | O => None
  | S fuel' =>
      let params := [("page", page)] in
      match statusesUrl username with
      | Throw err =>
          Some (allStatuses,
                [ConsoleLog (FetchingPage page);
                 ConsoleError (ErrorFetchingPage page err)])
      | Ok url =>
          let tr := [ConsoleLog (FetchingPage page); Fetch url params] in
          match
            (statusesResponse <- fetchJSON url params ;;
             data <- get statusesResponse "data" ;;
             Ok (statusesResponse, data))%result
          with
          | Throw err =>
              Some (allStatuses,
                    tr ++ [ConsoleError (ErrorFetchingPage page err)])
          | Ok (statusesResponse, data) =>
              if negb (truthy data) || negb (Array_isArray data) then
                Some (allStatuses,
                      tr ++ [ConsoleError
                               (UnexpectedFormat statusesResponse)])
              else
                let pageStatuses := items_of data in
                let allStatuses := allStatuses ++ pageStatuses in
                let hasMorePages := (0 <? List.length pageStatuses)%nat in
                let page := S page in
                let tr := tr ++ [ConsoleLog
                                   (Retrieved (List.length pageStatuses)
                                      (page - 1))] in
                if hasMorePages then
                  match paginate fuel' username page allStatuses with
                  | Some (all, tr') => Some (all, tr ++ [Sleep 1000] ++ tr')
                  | None => None
                  end
                else Some (allStatuses, tr)
          end
      end
  end.

Local Open Scope run_scope.

(** Lines 82-90: the profile request, the two reads from it and the line
    that prints them, whose template literal turns both into text. *)
Definition identify : E (value * value) :=
  emit (ConsoleLog FetchingProfile) ;;
  emit (Fetch profileUrl []) ;;
  userProfile <- lift (fetchJSON profileUrl []) ;;
  emit (ConsoleLog (UserProfile userProfile)) ;;
  userId <- lift (get2 userProfile "data" "id") ;;
  username <- lift (get2 userProfile "data" "username") ;;
  _ <- lift (ToString Number_toString userId) ;;
  _ <- lift (ToString Number_toString username) ;;
  emit (ConsoleLog (FoundUser userId username)) ;;
  ret (userProfile, username).

(** Line 139: the dates of the statuses, [new Date(s.createdAt)] for
    each. *)
Definition statusDate (s : value) : result Date :=
  (createdAt <- get s "createdAt" ;;
   new_Date Number_toString Date_parse createdAt)%result.

Definition statusDates (allStatuses : list value) : result (list Date) :=
  map_result statusDate allStatuses.

(** Lines 140-141: [new Date(Math.min(...dates))] and
    [new Date(Math.max(...dates))]. *)
Definition earliestOf (dates : list Date) : result Date :=
  rmap TimeClip (spread argumentLimit Math_min dates).

Definition latestOf (dates : list Date) : result Date :=
  rmap TimeClip (spread argumentLimit Math_max dates).

(** Lines 136-245, the body of [if (allStatuses.length > 0)]: the sample
    line, the statistics, the transform and the write. *)
Definition exportStatuses (userProfile username : value)
    (allStatuses : list value) : E unit :=
  emit (ConsoleLog (SampleStatus (hd VUndefined allStatuses))) ;;
  dates <- lift (statusDates allStatuses) ;;
  earliest <- lift (earliestOf dates) ;;
  latest <- lift (latestOf dates) ;;
  emit (ConsoleLog DateRangeHeader) ;;
  isoEarliest <- lift (toISOString earliest) ;;
  emit (ConsoleLog (Earliest isoEarliest)) ;;
  isoLatest <- lift (toISOString latest) ;;
  emit (ConsoleLog (Latest isoLatest)) ;;
  emit (ConsoleLog (MonthStatistics dates)) ;;
  exportData <- lift (exportData userProfile allStatuses
                        earliest latest now) ;;
  outputFile <- lift (rmap (fun name => name +++ "_statuses.json")
                        (ToString Number_toString username)) ;;
  match JSON_stringify Number_toString exportData with
  | Some text =>
      emit (WriteFile outputFile text) ;;
      emit (ConsoleLog (Done (List.length allStatuses) outputFile))
  | None => lift (Throw (TypeError "data"))
  end.

(** Lines 134-246: everything after the loop. *)
Definition export (userProfile username : value)
    (allStatuses : list value) : E unit :=
  emit (ConsoleLog (Found (List.length allStatuses))) ;;
  if (0 <? List.length allStatuses)%nat
  then exportStatuses userProfile username allStatuses
  else ret tt.

(** The outer [try]/[catch] of [run]: an error from anywhere in the body
    is logged and the run ends. *)
Definition catch_all (tr : list event) (r : result unit) : list event :=
  match r with
  | Ok _ => tr
  | Throw err => tr ++ [ConsoleError (Error err)]
  end.

(** [run()]: the events of a whole run, [None] when pagination is still
    going after [fuel] pages. *)
Definition run (fuel : nat) : option (list event) :=
  match identify with
  | (tr, Throw err) => Some (catch_all tr (Throw err))
  | (tr, Ok (userProfile, username)) =>
      match paginate fuel username 1 [] with
      | None => None
      | Some (allStatuses, tr') =>
          let '(tr'', r) := export userProfile username allStatuses in
          Some (catch_all (tr ++ tr' ++ tr'') r)
      end
  end.

(** The script: without a token it prints a message and exits with status
    1 before any request. *)
Definition script (API_TOKEN : option string) (fuel : nat)
  : option (list event) :=
  match API_TOKEN with
  | Some token =>
      if String.eqb token EmptyString
      then Some [ConsoleError MissingToken; Exit 1]
      else run fuel
  | None => Some [ConsoleError MissingToken; Exit 1]
  end.

End Run.

(** ** Observations on values and logs *)

(** The property [k] is written out for the object [o]: [o] has it as an
    own property with a defined value ([JSON.stringify] leaves out a
    property whose value is [undefined]). *)
Definition present (o : value) (k : string) : bool :=
  match o with
  | VObj fields =>
      match assoc k fields with
      | Some VUndefined | None => false
      | Some _ => true
      end
  | _ => false
  end.

(** The source value [o] has no property [k]. *)
Definition absent (o : value) (k : string) : bool :=
  match o with
  | VObj fields =>
      match assoc k fields with
      | Some _ => false
      | None => true
      end
  | _ => true
  end.

(** What a successful read [v.k] yields. *)
Definition prop (v : value) (k : string) : value :=
  match v with
  | VObj fields =>
      match assoc k fields with
      | Some x => x
      | None => VUndefined
      end
  | _ => VUndefined
  end.

(** The status has a train whose origin and destination are there:
    [status.train.origin] and [status.train.destination] can be read and
    are neither [null] nor [undefined]. *)
Definition train_complete (status : value) : bool :=
  match get2 status "train" "origin", get2 status "train" "destination" with
  | Ok origin, Ok destination =>
      negb (nullish origin) && negb (nullish destination)
  | _, _ => false
  end.

(** The object [o] with its property [k] replaced by [f] of it. *)
Definition update (o : value) (k : string) (f : value -> value) : value :=
  match o with
  | VObj fields =>
      VObj (map (fun '(k', x) =>
                   if String.eqb k k' then (k', f x) else (k', x)) fields)
  | _ => o
  end.

(** An export document with another [meta.exportedAt]. *)
Definition with_exportedAt (iso : string) (doc : value) : value :=
  update doc "meta" (fun meta => update meta "exportedAt" (fun _ => VStr iso)).

(** The body a page response carries: the items of its [data] array, if
    the request succeeded and the response has a [data] field that is an
    array. *)
Definition page_items (response : result value) : option (list value) :=
  match response with
  | Ok resp =>
      match get resp "data" with
      | Ok (VArr items) => Some items
      | _ => None
      end
  | Throw _ => None
  end.

(** The [fetchJSON] calls of a log, the files it writes, the errors its
    outer [catch] reported, in order. *)
Definition fetches (tr : list event) : list (string * list (string * nat)) :=
  flat_map (fun e => match e with
                     | Fetch url params => [(url, params)]
                     | _ => []
                     end) tr.

Definition writes (tr : list event) : list (string * string) :=
  flat_map (fun e => match e with
                     | WriteFile path content => [(path, content)]
                     | _ => []
                     end) tr.

Definition caught (tr : list event) : list exn :=
  flat_map (fun e => match e with
                     | ConsoleError (Error err) => [err]
                     | _ => []
                     end) tr.

(** Console output, a request or a delay: anything but a file write or an
    exit. *)
Definition diagnostic (e : event) : bool :=
  match e with
  | WriteFile _ _ | Exit _ => false
  | _ => true
  end.

(** A line of the statistics step. *)
Definition statistics_line (e : event) : bool :=
  match e with
  | ConsoleLog DateRangeHeader
  | ConsoleLog (Earliest _)
  | ConsoleLog (Latest _)
  | ConsoleLog (MonthStatistics _) => true
  | _ => false
  end.

(** The events of one loop iteration on a page that holds [count]
    items, and of a run of pages each of which holds some. *)
Definition page_events (url : string) (page count : nat) : list event :=
  [ ConsoleLog (FetchingPage page);
    Fetch url [("page", page)];
    ConsoleLog (Retrieved count page) ].

Fixpoint pages_events (url : string) (page : nat)
    (pages : list (list value)) : list event :=
  match pages with
  | [] => []
  | items :: rest =>
      page_events url page (List.length items)
        ++ [Sleep 1000] ++ pages_events url (S page) rest
  end.

(** The requests for pages [first], [first + 1], ..., [count] of them. *)
Definition page_requests (url : string) (first count : nat)
  : list (string * list (string * nat)) :=
  map (fun page => (url, [("page", page)])) (seq first count).

(** An event the pagination loop can emit. *)
Definition loop_event (e : event) : bool :=
  match e with
  | Fetch _ _ | Sleep _
  | ConsoleLog (FetchingPage _) | ConsoleLog (Retrieved _ _)
  | ConsoleError (ErrorFetchingPage _ _)
  | ConsoleError (UnexpectedFormat _) => true
  | _ => false
  end.

(** ** A sample engine and sample data

    Used to run the model on concrete inputs, and only there: no
    property below is stated about them.  [Sample.Number_toString] agrees
    with the engine on integral numbers below 10^21 and is used on such
    numbers only; [Sample.Date_parse] agrees with the engine on the
    date-time format with an explicit offset, [YYYY-MM-DDTHH:mm:ss], an
    optional [.sss], then [Z] or [+HH:mm] or [-HH:mm], and is used on such
    text only (it rejects all other text, of which the engine accepts
    some).  [Sample.argumentLimit] is of the order of what Node takes with
    its default stack. *)
Module Sample.

Definition argumentLimit : nat := N.to_nat 125000.

Definition Number_toString (n : float) : string :=
  match float_trunc n with
  | Some z => if z <? 0 then "-" +++ digits (- z) else digits z
  | None => "NaN"
  end.

Definition digit_of (c : ascii) : option Z :=
  let n := Z.of_N (N_of_ascii c) in
  if (48 <=? n) && (n <=? 57) then Some (n - 48) else None.

(** Reads exactly [n] decimal digits. *)
Fixpoint number (n : nat) (acc : Z) (s : string) : option (Z * string) :=
  match n with
  | O => Some (acc, s)
  | S m =>
      match s with
      | String c rest =>
          match digit_of c with
          | Some d => number m (10 * acc + d) rest
          | None => None
          end
      | EmptyString => None
      end
  end.

Definition expect (c : ascii) (s : string) : option string :=
  match s with
  | String c' rest => if Ascii.eqb c c' then Some rest else None
  | EmptyString => None
  end.

Definition days_from_civil (y m d : Z) : Z :=
  let y := if m <=? 2 then y - 1 else y in
  let era := y / 400 in
  let yoe := y - era * 400 in
  let doy := (153 * (if 2 <? m then m - 3 else m + 9) + 2) / 5 + d - 1 in
  let doe := yoe * 365 + yoe / 4 - yoe / 100 + doy in
  era * 146097 + doe - 719468.

Definition offset (s : string) : option Z :=
  match s with
  | "Z" => Some 0
  | String sign rest =>
      match number 2 0 rest with
      | Some (h, rest) =>
          match expect ":" rest with
          | Some rest =>
              match number 2 0 rest with
              | Some (m, EmptyString) =>
                  if (h <=? 23) && (m <=? 59) then
                    if Ascii.eqb sign "+" then Some (h * 60 + m)
                    else if Ascii.eqb sign "-" then Some (- (h * 60 + m))
                    else None
                  else None
              | _ => None
              end
          | None => None
          end
      | None => None
      end
  | EmptyString => None
  end.

Definition fraction (s : string) : option (Z * string) :=
  match expect "." s with
  | Some rest => number 3 0 rest
  | None => Some (0, s)
  end.

Definition opt_bind {A B} (o : option A) (k : A -> option B) : option B :=
  match o with
  | Some a => k a
  | None => None
  end.

Definition Date_parse (s : string) : option Z :=
  opt_bind (number 4 0 s) (fun '(y, s) =>
  opt_bind (expect "-" s) (fun s =>
  opt_bind (number 2 0 s) (fun '(mo, s) =>
  opt_bind (expect "-" s) (fun s =>
  opt_bind (number 2 0 s) (fun '(d, s) =>
  opt_bind (expect "T" s) (fun s =>
  opt_bind (number 2 0 s) (fun '(h, s) =>
  opt_bind (expect ":" s) (fun s =>
  opt_bind (number 2 0 s) (fun '(mi, s) =>
  opt_bind (expect ":" s) (fun s =>
  opt_bind (number 2 0 s) (fun '(sec, s) =>
  opt_bind (fraction s) (fun '(ms, s) =>
  opt_bind (offset s) (fun off =>
    let day := days_from_civil y mo d in
    let '(y', mo', d') := civil_from_days day in
    let time_ok :=
      ((h <=? 23) && (mi <=? 59) && (sec <=? 59))
      || ((h =? 24) && (mi =? 0) && (sec =? 0) && (ms =? 0)) in
    if (y' =? y) && (mo' =? mo) && (d' =? d) && time_ok then
      TimeClip
        (Some (day * 86400000 + h * 3600000 + (mi - off) * 60000
               + sec * 1000 + ms))
    else None))))))))))))).

Definition station (id : float) (name : string) : value :=
  VObj [ ("id", VNum id);
         ("name", VStr name);
         ("latitude", VNum 52%float);
         ("longitude", VNum 13%float);
         ("ibnr", VNum 8011160%float);
         ("rilIdentifier", VStr "BLS") ].

Definition status (id : float) (createdAt : string) : value :=
  VObj [ ("id", VNum id);
         ("body", VStr "on my way");
         ("username", VStr "alice");
         ("createdAt", VStr createdAt);
         ("train",
          VObj [ ("trip", VNum 7%float);
                 ("category", VStr "nationalExpress");
                 ("lineName", VStr "ICE 1");
                 ("origin", station 1%float "Berlin Hbf");
                 ("destination", station 2%float "Hamburg Hbf") ]) ].

Definition userProfile : value :=
  VObj [ ("data",
          VObj [ ("id", VNum 1%float);
                 ("displayName", VStr "Alice");
                 ("username", VStr "alice");
                 ("trainDistance", VNum 1200%float);
                 ("trainDuration", VNum 90%float);
                 ("points", VNum 5%float);
                 ("privateProfile", VBool false);
                 ("following", VBool true);
                 ("muted", VBool true) ]) ].

Definition page1 : list value :=
  [ status 10%float "2024-02-10T08:30:00+01:00";
    status 11%float "2024-01-05T10:00:00.000Z" ].


(** Two hundred thousand statuses. *)
Definition many : list value :=
  repeat (status 10%float "2024-02-10T08:30:00+01:00") (N.to_nat 200000).

Definition statusesUrl : string :=
  "https://traewelling.de/api/v1/user/alice/statuses".

(** A server given by the pages it holds: page [n] (from 1) is the [n]-th
    list, every later page is empty. *)
Definition serve (profile : result value) (pages : list (result value))
    (url : string) (params : list (string * nat)) : result value :=
  if String.eqb url profileUrl then profile
  else
    match params with
    | [(_, S n)] => nth n pages (Ok (VObj [("data", VArr [])]))
    | _ => Throw (Rejected "HTTP 404")
    end.

Definition paged (items : list value) : result value :=
  Ok (VObj [("data", VArr items)]).

Definition run (profile : result value) (pages : list (result value))
    (now : Z) (fuel : nat) : option (list event) :=
  run Number_toString Date_parse argumentLimit (serve profile pages)
    now fuel.

End Sample.

(** ** [fetchJSON], lines 24-69 *)

(** The promise [fetchJSON] returns: pending until the first call of
    [resolve] or [reject], which settles it for good. *)
Inductive promise : Type :=
| Pending
| Fulfilled (json : value)
| Failed (err : exn).

(** [resolve(v)] for [Ok v], [reject(e)] for [Throw e]: without effect on
    a settled promise. *)
Definition settle (p : promise) (outcome : result value) : promise :=
  match p with
  | Pending =>
      match outcome with
      | Ok v => Fulfilled v
      | Throw e => Failed e
      end
  | _ => p
  end.

(** What the handlers of one [https.get] get to see: nothing at all, when
    neither a response nor an error ever arrives; an ['error'] on the
    request before any response; or a response -- status code and headers
    -- followed by the events of its body: ['data'] chunks, ['end'], or an
    ['error'] on the request after the response began. *)
Inductive body_event : Type :=
| OnData (chunk : string)
| OnEnd
| OnError (err : exn).

Inductive exchange : Type :=
| NoAnswer
| NoResponse (err : exn)
| Response (statusCode : N) (headers : value) (body : list body_event).

(** The lines [fetchJSON] prints. *)
Inductive fetch_log : Type :=
| MakingRequest (url : string)
| WithHeaders (text : option string)
| ResponseStatus (statusCode : N)
| ResponseHeaders (text : option string).

(** A byte of [application/x-www-form-urlencoded] text: letters, digits
    and [*-._] stay, a space becomes [+], any other byte is written [%XX]
    in upper-case hexadecimal. *)
Definition HEX_digit (n : N) : ascii :=
  if (n <? 10)%N then ascii_of_N (48 + n) else ascii_of_N (55 + n).

Definition form_safe (n : N) : bool :=
  ((48 <=? n) && (n <=? 57) || (65 <=? n) && (n <=? 90)
   || (97 <=? n) && (n <=? 122)
   || (n =? 42) || (n =? 45) || (n =? 46) || (n =? 95))%N.

Definition form_byte (c : ascii) : string :=
  let n := N_of_ascii c in
  if form_safe n then String c EmptyString
  else if (n =? 32)%N then "+"
  else String "%" (String (HEX_digit (n / 16))
                     (String (HEX_digit (n mod 16)) EmptyString)).

Fixpoint form_encode (s : string) : string :=
  match s with
  | EmptyString => EmptyString
  | String c rest => form_byte c +++ form_encode rest
  end.

(** [new URLSearchParams(params).toString()] for parameters whose values
    are page numbers. *)
Definition URLSearchParams_toString (params : list (string * nat))
  : string :=
  join "&"
    (map (fun '(name, n) => form_encode name +++ "=" +++ digits (Z.of_nat n))
       params).

(** Lines 27-30: the query string is appended when there is a
    parameter. *)
Definition requestUrl (url : string) (params : list (string * nat))
  : string :=
  match params with
  | [] => url
  | _ :: _ => url +++ "?" +++ URLSearchParams_toString params
  end.

Section Fetch.

Variable Number_toString : float -> string.

(** [JSON.parse], a [SyntaxError] as a throw, and the text of a chunk
    ([data += chunk] turns each chunk into text on its own). *)
Variable JSON_parse : string -> result value.
Variable Buffer_toString : string -> string.

Variable API_TOKEN : string.

(** Lines 32-37. *)
Definition requestHeaders : value :=
  VObj [ ("Authorization", VStr ("Bearer " +++ API_TOKEN));
         ("Accept", VStr "application/json") ].

(** The handlers on the response, lines 55-65, on the promise and the
    [data] collected so far. *)
Definition on_body (st : promise * string) (ev : body_event)
  : promise * string :=
  let '(p, data) := st in
  match ev with
  | OnData chunk => (p, data +++ Buffer_toString chunk)
  | OnEnd => (settle p (JSON_parse data), data)
  | OnError err => (settle p (Throw err), data)
  end.

(** Lines 43-53: a status other than 200 rejects, and the handlers are
    registered all the same. *)
Definition on_response (url : string) (statusCode : N) : promise :=
  if (statusCode =? 200)%N then Pending
  else settle Pending
         (Throw (Rejected ("HTTP " +++ digits (Z.of_N statusCode)
                             +++ " when fetching " +++ url))).

(** [fetchJSON(url, params)] against an exchange: what it prints and the
    promise at the end of the exchange. *)
Definition fetchJSON_on (url : string) (params : list (string * nat))
    (x : exchange) : list fetch_log * promise :=
  let url := requestUrl url params in
  let announced :=
    [ MakingRequest url;
      WithHeaders (JSON_stringify Number_toString requestHeaders) ] in
  match x with
  | NoAnswer => (announced, Pending)
  | NoResponse err => (announced, settle Pending (Throw err))
  | Response statusCode headers body =>
      (announced
         ++ [ ResponseStatus statusCode;
              ResponseHeaders (JSON_stringify Number_toString headers) ],
       fst (fold_left on_body body (on_response url statusCode, EmptyString)))
  end.

(** What [await] gives for a settled promise; a pending one never
    returns. *)
Definition awaited (p : promise) : option (result value) :=
  match p with
  | Pending => None
  | Fulfilled v => Some (Ok v)
  | Failed e => Some (Throw e)
  end.

End Fetch.

(** The body event settles a pending promise. *)
Definition settling (ev : body_event) : bool :=
  match ev with
  | OnData _ => false
  | OnEnd | OnError _ => true
  end.

Definition chunk_of (ev : body_event) : list string :=
  match ev with
  | OnData chunk => [chunk]
  | _ => []
  end.

(** ** The month statistics, lines 147-161 *)

(** The decimal text of an integer. *)
Definition int_text (z : Z) : string :=
  if z <? 0 then "-" +++ digits (- z) else digits z.

Section Months.

(** The offset of local time from UTC at a time value, in
    milliseconds. *)
Variable LocalTZA : Z -> Z.

(** Lines 150-152: [getFullYear()] and [getMonth() + 1] of the date in
    local time, the month padded to two digits; both are NaN for an
    invalid date. *)
Definition monthKey (d : Date) : string :=
  match d with
  | Some t =>
      let '(y, m, _) := civil_from_days ((t + LocalTZA t) / 86400000) in
      int_text y +++ "-" +++ padStart 2 (digits m)
  | None => "NaN-NaN"
  end.

(** Line 153, [monthCounts[monthKey] = (monthCounts[monthKey] || 0) + 1]:
    a new key goes to the end of the object's keys. *)
Fixpoint bump (key : string) (counts : list (string * nat))
  : list (string * nat) :=
  match counts with
  | [] => [(key, 1%nat)]
  | (k, n) :: rest =>
      if String.eqb key k then (k, S n) :: rest
      else (k, n) :: bump key rest
  end.

(** [monthCounts[key] || 0]. *)
Fixpoint count_of (key : string) (counts : list (string * nat)) : nat :=
  match counts with
  | [] => 0%nat
  | (k, n) :: rest => if String.eqb key k then n else count_of key rest
  end.

Definition monthCounts (dates : list Date) : list (string * nat) :=
  fold_left (fun counts d => bump (monthKey d) counts) dates [].

(** [Object.entries(monthCounts).sort()]: without a comparison function
    the entries are ordered by their text, [month,count]; the sort is
    stable. *)
Definition entry_text (e : string * nat) : string :=
  fst e +++ "," +++ digits (Z.of_nat (snd e)).

Fixpoint insert_entry (e : string * nat) (sorted : list (string * nat))
  : list (string * nat) :=
  match sorted with
  | [] => [e]
  | x :: rest =>
      if String.leb (entry_text e) (entry_text x) then e :: x :: rest
      else x :: insert_entry e rest
  end.

Definition sort_entries (entries : list (string * nat))
  : list (string * nat) :=
  fold_right insert_entry [] entries.

(** The lines printed under "Statuses by month:", as month and count. *)
Definition monthReport (dates : list Date) : list (string * nat) :=
  sort_entries (monthCounts dates).

End Months.

(** ** More observations *)

(** The delays of a log, the keys of an object, the [data] of a profile
    response that has one. *)
Definition sleeps (tr : list event) : list Z :=
  flat_map (fun e => match e with
                     | Sleep ms => [ms]
                     | _ => []
                     end) tr.

Definition keys (o : value) : list string :=
  match o with
  | VObj fields => map fst fields
  | _ => []
  end.

(** The value is written out by [JSON.stringify]: it is not
    [undefined]. *)
Definition defined (v : value) : bool :=
  match v with
  | VUndefined => false
  | _ => true
  end.

(** The keys [JSON.stringify] writes for an object: those of the
    properties whose value is not [undefined]. *)
Definition written_keys (o : value) : list string :=
  match o with
  | VObj fields => map fst (filter (fun kv => defined (snd kv)) fields)
  | _ => []
  end.

(** The keys of a station in the export, lines 219-224 and 227-232. *)
Definition stationKeys : list string :=
  ["id"; "name"; "latitude"; "longitude"; "ibnr"; "rilIdentifier"].

Definition profile_data (response : result value) : option value :=
  match response with
  | Ok userProfile =>
      match get userProfile "data" with
      | Ok data => if nullish data then None else Some data
      | Throw _ => None
      end
  | Throw _ => None
  end.

(** The items a page contributes to the accumulated list. *)
Definition items_on (response : result value) : list value :=
  match page_items response with
  | Some items => items
  | None => []
  end.

(** The loop stops on this page: it is unusable or holds no item. *)
Definition last_page (response : result value) : bool :=
  match page_items response with
  | Some (_ :: _) => false
  | _ => true
  end.

(** A sample exchange and sample engine functions for [fetchJSON]. *)
Module SampleNet.

(** A parser that knows two bodies. *)
Definition JSON_parse (s : string) : result value :=
  if String.eqb s "{}" then Ok (VObj [])
  else if String.eqb s "[]" then Ok (VArr [])
  else Throw (Rejected "Unexpected token").

Definition Buffer_toString (chunk : string) : string := chunk.

Definition token : string := "s3cret".

Definition statusUrl : string :=
  "https://traewelling.de/api/v1/user/alice/statuses".

(** Local time one hour ahead of UTC. *)
Definition LocalTZA (t : Z) : Z := 3600000.

End SampleNet.

(** * Properties *)

(** ** Results and reads *)

Ltac split_result H :=
  repeat match type of H with
  | context [rbind ?r _] =>
      lazymatch r with
      | rbind _ _ => fail
      | _ => let E := fresh "E" in
             destruct r eqn:E; cbn [rbind] in H; [ | discriminate H ]
      end
  end.

Lemma Ok_inj {A} (a b : A) : Ok a = Ok b -> a = b.
Proof. congruence. Qed.

Lemma get_prop (v : value) (k : string) :
  nullish v = false -> get v k = Ok (prop v k).
Proof.
  destruct v; cbn; try discriminate; try reflexivity.
  intros _. destruct (assoc k fields); reflexivity.
Qed.

Lemma get_throws (v : value) (k : string) :
  nullish v = true -> get v k = Throw (TypeError k).
Proof. destruct v; cbn; try discriminate; reflexivity. Qed.

Lemma get_ok_inv (v : value) (k : string) (x : value) :
  get v k = Ok x -> nullish v = false /\ x = prop v k.
Proof.
  destruct v; cbn; try discriminate; intros H;
    try (inversion H; subst; split; reflexivity).
  destruct (assoc k fields); inversion H; subst; split; reflexivity.
Qed.

Lemma prop_defined_object (v : value) (k : string) :
  nullish (prop v k) = false -> nullish v = false.
Proof. destruct v; cbn; try reflexivity; discriminate. Qed.

(** ** The schema transform *)

Lemma exportUser_shape (userProfile user : value) :
  exportUser userProfile = Ok user ->
  exists id displayName username profilePicture trainDistance trainDuration
         points mastodonUrl privateProfile preventIndex likes_enabled,
    user =
      VObj [ ("id", id); ("displayName", displayName);
             ("username", username); ("profilePicture", profilePicture);
             ("trainDistance", trainDistance);
             ("totalDistance", trainDistance);
             ("trainDuration", trainDuration);
             ("totalDuration", trainDuration);
             ("points", points); ("mastodonUrl", mastodonUrl);
             ("privateProfile", privateProfile);
             ("preventIndex", preventIndex);
             ("likes_enabled", likes_enabled);
             ("pointsEnabled", VBool true);
             ("userInvisibleToMe", VBool false);
             ("muted", VBool false);
             ("following", VBool false);
             ("followPending", VBool false);
             ("followedBy", VBool false) ]
    /\ get2 userProfile "data" "trainDistance" = Ok trainDistance
    /\ get2 userProfile "data" "trainDuration" = Ok trainDuration.
Proof.
  unfold exportUser, object, rmap. cbn [properties]. intros H.
  split_result H. inversion H; subst; clear H.
  repeat eexists; eauto.
Qed.

Lemma exportData_shape (userProfile : value) (allStatuses : list value)
    (earliest latest : Date) (now : Z) (doc : value) :
  exportData userProfile allStatuses earliest latest now = Ok doc ->
  exists user isoFrom isoTo entries,
    exportUser userProfile = Ok user
    /\ toISOString earliest = Ok isoFrom
    /\ toISOString latest = Ok isoTo
    /\ map_result transformStatus allStatuses = Ok entries
    /\ doc =
         VObj [ ("meta",
                 VObj [ ("user", user); ("from", VStr isoFrom);
                        ("to", VStr isoTo);
                        ("exportedAt", VStr (iso_of_time now)) ]);
                ("data", VArr entries) ].
Proof.
  unfold exportData, object, rmap. cbn [properties toISOString]. intros H.
  split_result H. inversion H; subst; clear H.
  repeat eexists; eauto.
Qed.

(** C6: whatever the profile and the statuses are, the [meta.user] of a
    produced export document carries [pointsEnabled] [true] and
    [userInvisibleToMe], [muted], [following], [followPending] and
    [followedBy] [false]. *)
Theorem fixed_literal_fields (userProfile : value)
    (allStatuses : list value) (earliest latest : Date) (now : Z)
    (doc : value) :
  exportData userProfile allStatuses earliest latest now = Ok doc ->
  exists user,
    get2 doc "meta" "user" = Ok user
    /\ get user "pointsEnabled" = Ok (VBool true)
    /\ get user "userInvisibleToMe" = Ok (VBool false)
    /\ get user "muted" = Ok (VBool false)
    /\ get user "following" = Ok (VBool false)
    /\ get user "followPending" = Ok (VBool false)
    /\ get user "followedBy" = Ok (VBool false)
    /\ present user "pointsEnabled" = true
    /\ present user "userInvisibleToMe" = true
    /\ present user "muted" = true
    /\ present user "following" = true
    /\ present user "followPending" = true
    /\ present user "followedBy" = true.
Proof.
  intros H. apply exportData_shape in H.
  destruct H as (user & isoFrom & isoTo & entries & Hu & _ & _ & _ & ->).
  apply exportUser_shape in Hu.
  destruct Hu as (? & ? & ? & ? & ? & ? & ? & ? & ? & ? & ? & -> & _ & _).
  eexists. split; [ reflexivity | ].
  repeat split; reflexivity.
Qed.

(** C9: in a produced export document [meta.user.totalDistance] is
    [meta.user.trainDistance] and [meta.user.totalDuration] is
    [meta.user.trainDuration], both read from the profile's [trainDistance]
    and [trainDuration]. *)
Theorem totals_copy_train_fields (userProfile : value)
    (allStatuses : list value) (earliest latest : Date) (now : Z)
    (doc : value) :
  exportData userProfile allStatuses earliest latest now = Ok doc ->
  exists user,
    get2 doc "meta" "user" = Ok user
    /\ get user "totalDistance" = get user "trainDistance"
    /\ get user "trainDistance" = get2 userProfile "data" "trainDistance"
    /\ get user "totalDuration" = get user "trainDuration"
    /\ get user "trainDuration" = get2 userProfile "data" "trainDuration".
Proof.
  intros H. apply exportData_shape in H.
  destruct H as (user & isoFrom & isoTo & entries & Hu & _ & _ & _ & ->).
  apply exportUser_shape in Hu.
  destruct Hu as (? & ? & ? & ? & ? & ? & ? & ? & ? & ? & ? & -> & Hd & Ht).
  eexists. split; [ reflexivity | ].
  rewrite Hd, Ht. repeat split; reflexivity.
Qed.

Lemma get2_prop (v : value) (k1 k2 : string) :
  nullish v = false -> nullish (prop v k1) = false ->
  get2 v k1 k2 = Ok (prop (prop v k1) k2).
Proof.
  intros Hv Hx. unfold get2. rewrite (get_prop v k1 Hv). cbn.
  apply get_prop, Hx.
Qed.

Lemma get3_prop (v : value) (k1 k2 k3 : string) :
  nullish v = false -> nullish (prop v k1) = false ->
  nullish (prop (prop v k1) k2) = false ->
  get3 v k1 k2 k3 = Ok (prop (prop (prop v k1) k2) k3).
Proof.
  intros Hv Hx Hy. unfold get3. rewrite (get2_prop v k1 k2 Hv Hx). cbn.
  apply get_prop, Hy.
Qed.

Lemma get2_ok_inv (v : value) (k1 k2 : string) (x : value) :
  get2 v k1 k2 = Ok x ->
  nullish v = false /\ nullish (prop v k1) = false
  /\ x = prop (prop v k1) k2.
Proof.
  unfold get2. destruct (get v k1) as [y | e] eqn:E; cbn; try discriminate.
  intros H. apply get_ok_inv in E. apply get_ok_inv in H.
  destruct E as [Hv ->]. destruct H as [Hy ->]. auto.
Qed.

Lemma get3_ok_inv (v : value) (k1 k2 k3 : string) (x : value) :
  get3 v k1 k2 k3 = Ok x ->
  nullish v = false /\ nullish (prop v k1) = false
  /\ nullish (prop (prop v k1) k2) = false.
Proof.
  unfold get3. destruct (get2 v k1 k2) as [y | e] eqn:E; cbn;
    try discriminate.
  intros H. apply get2_ok_inv in E. apply get_ok_inv in H.
  destruct E as (Hv & Hx & ->). destruct H as [Hy _]. auto.
Qed.

Lemma train_complete_spec (status : value) :
  train_complete status = true <->
  nullish status = false
  /\ nullish (prop status "train") = false
  /\ nullish (prop (prop status "train") "origin") = false
  /\ nullish (prop (prop status "train") "destination") = false.
Proof.
  unfold train_complete. split.
  - destruct (get2 status "train" "origin") as [o | ] eqn:Eo;
      try discriminate.
    destruct (get2 status "train" "destination") as [d | ] eqn:Ed;
      try discriminate.
    apply get2_ok_inv in Eo. apply get2_ok_inv in Ed.
    destruct Eo as (Hs & Ht & ->). destruct Ed as (_ & _ & ->).
    intros H. apply andb_true_iff in H. destruct H as [Ho Hd].
    apply negb_true_iff in Ho. apply negb_true_iff in Hd. auto.
  - intros (Hs & Ht & Ho & Hd).
    rewrite !get2_prop by assumption. rewrite Ho, Hd. reflexivity.
Qed.

(** The transform of one status goes through exactly when the status has
    its train with origin and destination. *)
Lemma transformStatus_ok_iff (status : value) :
  (exists entry, transformStatus status = Ok entry)
  <-> train_complete status = true.
Proof.
  rewrite train_complete_spec. split.
  - intros [entry H]. unfold transformStatus, stop, object, rmap in H.
    cbn [properties] in H. split_result H.
    repeat match goal with
           | E : get3 _ _ _ _ = Ok _ |- _ => apply get3_ok_inv in E
           end.
    intuition.
  - intros (Hs & Ht & Ho & Hd).
    unfold transformStatus, stop, or_default.
    rewrite !get3_prop, !get2_prop, !get_prop by assumption.
    cbn. eexists. reflexivity.
Qed.




Lemma map_result_length {A B} (f : A -> result B) (xs : list A)
    (ys : list B) :
  map_result f xs = Ok ys -> List.length ys = List.length xs.
Proof.
  revert ys. induction xs as [ | x xs IH]; cbn; intros ys H.
  - inversion H. reflexivity.
  - destruct (f x); try discriminate.
    destruct (map_result f xs); try discriminate.
    cbn in H. inversion H. cbn. f_equal. apply IH. reflexivity.
Qed.

Lemma js_or_defined (v d : value) :
  d <> VUndefined -> js_or v d <> VUndefined.
Proof.
  unfold js_or. destruct (truthy v) eqn:E; auto.
  intros _ ->. discriminate.
Qed.

Lemma absent_reads_undefined (o : value) (k : string) (x : value) :
  absent o k = true -> get o k = Ok x -> x = VUndefined.
Proof.
  destruct o; cbn; intros Ha Hg; try discriminate; try congruence.
  destruct (assoc k fields); congruence.
Qed.

Lemma present_field (k : string) (fields : list (string * value))
    (x : value) :
  assoc k fields = Some x -> x <> VUndefined ->
  present (VObj fields) k = true.
Proof. cbn. intros -> H. destruct x; congruence. Qed.

(** C7: in the entry the transform makes of a status, [body],
    [bodyMentions] and [tags] of [status] and [stopovers] of [trip] are
    always there with a defined value, and where the source field is absent
    they are the empty string, the empty list, the empty list and the empty
    list. *)
Theorem optional_fields_default (status entry : value) :
  transformStatus status = Ok entry ->
  exists st trip,
    get entry "status" = Ok st /\ get entry "trip" = Ok trip
    /\ present st "body" = true
    /\ present st "bodyMentions" = true
    /\ present st "tags" = true
    /\ present trip "stopovers" = true
    /\ (absent status "body" = true -> get st "body" = Ok (VStr ""))
    /\ (absent status "bodyMentions" = true ->
        get st "bodyMentions" = Ok (VArr []))
    /\ (absent status "tags" = true -> get st "tags" = Ok (VArr []))
    /\ (forall train, get status "train" = Ok train ->
        absent train "stopovers" = true ->
        get trip "stopovers" = Ok (VArr [])).
Proof.
  intros H. unfold transformStatus, stop, or_default, object, rmap in H.
  cbn [properties] in H. split_result H. inversion H; subst; clear H.
  do 2 eexists. split; [ reflexivity | ]. split; [ reflexivity | ].
  repeat match goal with
         | |- present _ _ = true /\ _ =>
             split; [ eapply present_field;
                      [ reflexivity | apply js_or_defined; discriminate ] | ]
         end.
  repeat split.
  1-3: intros Ha;
    match goal with
    | E : get _ _ = Ok _ |- _ =>
        rewrite (absent_reads_undefined _ _ _ Ha E)
    end; reflexivity.
  intros train Ht Ha. injection Ht as <-.
  match goal with
  | Et : get ?s ?k = Ok _, E : get2 ?s ?k _ = Ok _ |- _ =>
      unfold get2 in E; rewrite Et in E; cbn [rbind] in E;
      rewrite (absent_reads_undefined _ _ _ Ha E)
  end. reflexivity.
Qed.

(** C1 (as amended): for a fixed profile, status list and date range, the
    document of a run at clock reading [now'] is the document of a run at
    clock reading [now] with [meta.exportedAt] replaced by the text of
    [now'] -- nothing else depends on the run, and an error, if there is
    one, is the same. *)
Theorem deterministic_up_to_exportedAt (userProfile : value)
    (allStatuses : list value) (earliest latest : Date) (now now' : Z) :
  exportData userProfile allStatuses earliest latest now'
  = rmap (with_exportedAt (iso_of_time now'))
         (exportData userProfile allStatuses earliest latest now).
Proof.
  unfold exportData, object, rmap. cbn [properties toISOString].
  destruct (exportUser userProfile) as [user | ]; cbn; try reflexivity.
  destruct earliest, latest; cbn; try reflexivity.
  destruct (map_result transformStatus allStatuses); reflexivity.
Qed.

(** ** The date range *)

Lemma TimeClip_range (d : option Z) (t : Z) :
  TimeClip d = Some t -> Z.abs t <= maxTime.
Proof.
  destruct d as [z | ]; cbn; try discriminate.
  destruct (Z.abs z <=? maxTime) eqn:E; try discriminate.
  intros H. inversion H; subst. apply Z.leb_le, E.
Qed.

Lemma TimeClip_in_range (t : Z) :
  Z.abs t <= maxTime -> TimeClip (Some t) = Some t.
Proof. intros H. cbn. apply Z.leb_le in H. rewrite H. reflexivity. Qed.

Lemma Math_min_spec (t : Z) (ts : list Z) :
  exists m, Math_min (map Some (t :: ts)) = Some m
            /\ In m (t :: ts) /\ Forall (fun x => m <= x) (t :: ts).
Proof.
  revert t. induction ts as [ | u ts IH]; intros t.
  - exists t. cbn. repeat split; auto. constructor; [ lia | constructor ].
  - destruct (IH u) as (m & Hm & Hin & Hle).
    change (Math_min (map Some (t :: u :: ts)))
      with (match Math_min (map Some (u :: ts)) with
            | Some b => Some (Z.min t b)
            | None => None
            end).
    rewrite Hm. exists (Z.min t m). split; [ reflexivity | ]. split.
    + destruct (Z.min_spec t m) as [[_ ->] | [_ ->]];
        [ left; reflexivity | right; exact Hin ].
    + constructor; [ apply Z.le_min_l | ].
      eapply Forall_impl; [ | exact Hle ]. cbn. intros x Hx.
      pose proof (Z.le_min_r t m). lia.
Qed.

Lemma Math_max_spec (t : Z) (ts : list Z) :
  exists m, Math_max (map Some (t :: ts)) = Some m
            /\ In m (t :: ts) /\ Forall (fun x => x <= m) (t :: ts).
Proof.
  revert t. induction ts as [ | u ts IH]; intros t.
  - exists t. cbn. repeat split; auto. constructor; [ lia | constructor ].
  - destruct (IH u) as (m & Hm & Hin & Hle).
    change (Math_max (map Some (t :: u :: ts)))
      with (match Math_max (map Some (u :: ts)) with
            | Some b => Some (Z.max t b)
            | None => None
            end).
    rewrite Hm. exists (Z.max t m). split; [ reflexivity | ]. split.
    + destruct (Z.max_spec t m) as [[_ ->] | [_ ->]];
        [ right; exact Hin | left; reflexivity ].
    + constructor; [ apply Z.le_max_l | ].
      eapply Forall_impl; [ | exact Hle ]. cbn. intros x Hx.
      pose proof (Z.le_max_r t m). lia.
Qed.

(** [Math.min] and [Math.max] are NaN together: exactly when some date
    is invalid or there is none. *)
Lemma Math_min_max_valid (ds : list Date) :
  (exists m, Math_min ds = Some m) <-> (exists m, Math_max ds = Some m).
Proof.
  induction ds as [ | d ds IH].
  - cbn. split; intros [m H]; discriminate.
  - destruct ds as [ | d' ds'].
    + cbn. tauto.
    + change (Math_min (d :: d' :: ds'))
        with (match d, Math_min (d' :: ds') with
              | Some a, Some b => Some (Z.min a b)
              | _, _ => None
              end).
      change (Math_max (d :: d' :: ds'))
        with (match d, Math_max (d' :: ds') with
              | Some a, Some b => Some (Z.max a b)
              | _, _ => None
              end).
      destruct d as [a | ].
      * destruct (Math_min (d' :: ds')) as [b | ],
                 (Math_max (d' :: ds')) as [c | ]; split; intros [m H];
          eauto; try discriminate.
        -- destruct (proj1 IH) as [x Hx]; [ eauto | discriminate ].
        -- destruct (proj2 IH) as [x Hx]; [ eauto | discriminate ].
      * split; intros [m H]; discriminate.
Qed.

Lemma Math_min_members (ds : list Date) (m : Z) :
  Math_min ds = Some m -> In (Some m) ds /\ Forall (fun d => d <> None) ds.
Proof.
  revert m. induction ds as [ | d ds IH]; intros m.
  - discriminate.
  - destruct ds as [ | d' ds'].
    + cbn. intros ->. split; [ auto | ].
      constructor; [ discriminate | constructor ].
    + change (Math_min (d :: d' :: ds'))
        with (match d, Math_min (d' :: ds') with
              | Some a, Some b => Some (Z.min a b)
              | _, _ => None
              end).
      destruct d as [a | ]; try discriminate.
      destruct (Math_min (d' :: ds')) as [b | ]; try discriminate.
      intros H. inversion H; subst; clear H.
      destruct (IH b eq_refl) as [Hin Hall]. split.
      * destruct (Z.min_spec a b) as [[_ ->] | [_ ->]];
          [ left; reflexivity | right; exact Hin ].
      * constructor; [ discriminate | exact Hall ].
Qed.

Lemma Math_max_members (ds : list Date) (m : Z) :
  Math_max ds = Some m -> In (Some m) ds.
Proof.
  revert m. induction ds as [ | d ds IH]; intros m.
  - discriminate.
  - destruct ds as [ | d' ds'].
    + cbn. intros ->. auto.
    + change (Math_max (d :: d' :: ds'))
        with (match d, Math_max (d' :: ds') with
              | Some a, Some b => Some (Z.max a b)
              | _, _ => None
              end).
      destruct d as [a | ]; try discriminate.
      destruct (Math_max (d' :: ds')) as [b | ]; try discriminate.
      intros H. inversion H; subst; clear H.
      destruct (Z.max_spec a b) as [[_ ->] | [_ ->]];
        [ right; apply IH; reflexivity | left; reflexivity ].
Qed.

Lemma Forall2_repeat {A B} (R : A -> B -> Prop) (a : A) (b : B) (n : nat) :
  R a b -> Forall2 R (repeat a n) (repeat b n).
Proof. intros H. induction n; cbn; constructor; assumption. Qed.

Lemma spread_within {A B} (argumentLimit : nat) (f : list A -> B)
    (xs : list A) :
  (List.length xs <= argumentLimit)%nat ->
  spread argumentLimit f xs = Ok (f xs).
Proof.
  intros H. unfold spread. apply Nat.leb_le in H. rewrite H. reflexivity.
Qed.

Lemma spread_beyond {A B} (argumentLimit : nat) (f : list A -> B)
    (xs : list A) :
  (argumentLimit < List.length xs)%nat ->
  spread argumentLimit f xs = Throw RangeError.
Proof.
  intros H. unfold spread. apply Nat.leb_gt in H. rewrite H. reflexivity.
Qed.

Section Dates.

Variable Number_toString : float -> string.
Variable Date_parse : string -> option Z.
Variable argumentLimit : nat.

Local Abbreviation statusDate_ := (statusDate Number_toString Date_parse).
Local Abbreviation statusDates_ := (statusDates Number_toString Date_parse).

Lemma new_Date_range (v : value) (t : Z) :
  new_Date Number_toString Date_parse v = Ok (Some t) ->
  Z.abs t <= maxTime.
Proof.
  assert (Hconv : forall w,
             rmap (fun text => TimeClip (Date_parse text))
               (ToString Number_toString w) = Ok (Some t) ->
             Z.abs t <= maxTime).
  { intros w. destruct (ToString Number_toString w); cbn; try discriminate.
    intros H. injection H as H. eapply TimeClip_range, H. }
  destruct v; cbn [new_Date]; intros H; try discriminate;
    try (apply Ok_inj in H; eapply TimeClip_range, H);
    eapply Hconv, H.
Qed.

Lemma statusDate_range (s : value) (t : Z) :
  statusDate_ s = Ok (Some t) -> Z.abs t <= maxTime.
Proof.
  unfold statusDate.
  destruct (get s "createdAt") as [c | ]; cbn [rbind]; try discriminate.
  apply new_Date_range.
Qed.

Lemma statusDates_clipped (allStatuses : list value) (dates : list Date) :
  statusDates_ allStatuses = Ok dates ->
  Forall (fun d => forall t, d = Some t -> Z.abs t <= maxTime) dates.
Proof.
  unfold statusDates. revert dates.
  induction allStatuses as [ | s ss IH]; cbn; intros dates H.
  - inversion H. constructor.
  - destruct (statusDate_ s) as [d | ] eqn:Ed; cbn in H; try discriminate.
    destruct (map_result _ ss) as [ds | ]; cbn in H; try discriminate.
    inversion H; subst. constructor; [ | apply IH; reflexivity ].
    intros t ->. eapply statusDate_range, Ed.
Qed.

Lemma statusDates_valid (allStatuses : list value) (ts : list Z) :
  Forall2 (fun s t => statusDate_ s = Ok (Some t)) allStatuses ts ->
  statusDates_ allStatuses = Ok (map Some ts)
  /\ Forall (fun t => Z.abs t <= maxTime) ts.
Proof.
  unfold statusDates.
  induction 1 as [ | s t ss ts Hs _ [IH IHr]]; cbn.
  - split; [ reflexivity | constructor ].
  - rewrite Hs, IH. cbn. split; [ reflexivity | ].
    constructor; [ | exact IHr ]. eapply statusDate_range, Hs.
Qed.

(** Within the engine's argument limit the range of a non-empty list of
    valid dates is its least and its greatest time value. *)
Lemma date_range_is_min_max (allStatuses : list value) (ts : list Z) :
  allStatuses <> [] ->
  Forall2 (fun s t => statusDate_ s = Ok (Some t)) allStatuses ts ->
  (List.length allStatuses <= argumentLimit)%nat ->
  exists lo hi,
    rbind (statusDates_ allStatuses) (earliestOf argumentLimit)
    = Ok (Some lo)
    /\ rbind (statusDates_ allStatuses) (latestOf argumentLimit)
       = Ok (Some hi)
    /\ In lo ts /\ Forall (fun t => lo <= t) ts
    /\ In hi ts /\ Forall (fun t => t <= hi) ts
    /\ (forall t, ts = [t] -> lo = t /\ hi = t /\ lo = hi).
Proof.
  intros Hne H Hlen.
  destruct (statusDates_valid allStatuses ts H) as [Hd Hr].
  assert (Hlen' : (List.length (map Some ts) <= argumentLimit)%nat).
  { rewrite length_map, <- (Forall2_length H). exact Hlen. }
  destruct ts as [ | t ts].
  { inversion H; subst. contradiction. }
  destruct (Math_min_spec t ts) as (lo & Hlo & Hlin & Hlle).
  destruct (Math_max_spec t ts) as (hi & Hhi & Hhin & Hhle).
  exists lo, hi. rewrite Hd. unfold earliestOf, latestOf, rmap.
  cbn [rbind]. rewrite !spread_within by exact Hlen'. cbn [rbind].
  rewrite Hlo, Hhi.
  rewrite Forall_forall in Hr.
  rewrite !TimeClip_in_range by (apply Hr; assumption).
  do 6 (split; [ first [ reflexivity | assumption ] | ]).
  intros t0 Ht0. injection Ht0 as -> ->.
  destruct Hlin as [-> | []]. destruct Hhin as [-> | []]. auto.
Qed.

(** Beyond the engine's argument limit neither end of the range is
    computed: the spread call throws. *)
Lemma date_range_overflow (allStatuses : list value) (dates : list Date) :
  statusDates_ allStatuses = Ok dates ->
  (argumentLimit < List.length allStatuses)%nat ->
  earliestOf argumentLimit dates = Throw RangeError
  /\ latestOf argumentLimit dates = Throw RangeError.
Proof.
  intros Hd Hlen. apply map_result_length in Hd.
  unfold earliestOf, latestOf, rmap.
  rewrite !spread_beyond by (rewrite Hd; exact Hlen). split; reflexivity.
Qed.

(** C5: for a non-empty list of statuses whose creation timestamps are
    the time values [ts].  Within the engine's argument limit the computed
    earliest date is the least and the computed latest date the greatest of
    [ts], and with a single status both are its timestamp.  Beyond the
    limit [Math.min(...dates)] throws a [RangeError]: no range is computed,
    and the code after the loop ends with that error after the sample
    line, before a date is printed or a file written. *)
Theorem date_range_up_to_argument_limit (allStatuses : list value)
    (ts : list Z) :
  allStatuses <> [] ->
  Forall2 (fun s t => statusDate_ s = Ok (Some t)) allStatuses ts ->
  ((List.length allStatuses <= argumentLimit)%nat ->
   exists lo hi,
     rbind (statusDates_ allStatuses) (earliestOf argumentLimit)
     = Ok (Some lo)
     /\ rbind (statusDates_ allStatuses) (latestOf argumentLimit)
        = Ok (Some hi)
     /\ In lo ts /\ Forall (fun t => lo <= t) ts
     /\ In hi ts /\ Forall (fun t => t <= hi) ts
     /\ (forall t, ts = [t] -> lo = t /\ hi = t /\ lo = hi))
  /\ ((argumentLimit < List.length allStatuses)%nat ->
      rbind (statusDates_ allStatuses) (earliestOf argumentLimit)
      = Throw RangeError
      /\ rbind (statusDates_ allStatuses) (latestOf argumentLimit)
         = Throw RangeError
      /\ forall (now : Z) (userProfile username : value),
           export Number_toString Date_parse argumentLimit now
             userProfile username allStatuses
           = ([ ConsoleLog (Found (List.length allStatuses));
                ConsoleLog (SampleStatus (hd VUndefined allStatuses)) ],
              Throw RangeError)).
Proof.
  intros Hne H. split.
  - apply date_range_is_min_max; assumption.
  - intros Hlen.
    destruct (statusDates_valid allStatuses ts H) as [Hd _].
    destruct (date_range_overflow _ _ Hd Hlen) as [He Hl].
    rewrite Hd. cbn [rbind]. split; [ exact He | ]. split; [ exact Hl | ].
    intros now userProfile username.
    destruct allStatuses as [ | s ss]; [ contradiction | ].
    unfold export. cbn [List.length Nat.ltb Nat.leb].
    unfold exportStatuses. cbn [bind lift emit ret].
    rewrite Hd, He. reflexivity.
Qed.

End Dates.

(** ** The pagination loop *)

Section Pagination.

Local Open Scope nat_scope.

Variable Number_toString : float -> string.
Variable fetchJSON : string -> list (string * nat) -> result value.
Variable username : value.

Local Abbreviation urlOf := (statusesUrl Number_toString username).
Local Abbreviation pageOf page :=
  (fetchPage Number_toString fetchJSON username page).
Local Abbreviation loop := (paginate Number_toString fetchJSON).

Lemma page_items_Some (r : result value) (items : list value) :
  page_items r = Some items ->
  exists resp, r = Ok resp /\ get resp "data" = Ok (VArr items).
Proof.
  unfold page_items. destruct r as [resp | ]; try discriminate.
  destruct (get resp "data") as [[ | | | | | l | ] | ] eqn:E;
    try discriminate.
  intros H. inversion H; subst. eauto.
Qed.

Lemma fetchPage_at (url : string) (page : nat) :
  urlOf = Ok url -> pageOf page = fetchJSON url [("page", page)].
Proof. unfold fetchPage. intros ->. reflexivity. Qed.

Lemma fetchPage_url (page : nat) (items : list value) :
  page_items (pageOf page) = Some items -> exists url, urlOf = Ok url.
Proof.
  unfold fetchPage. destruct urlOf; cbn; [ eauto | discriminate ].
Qed.

(** When the URL cannot be built the first iteration is the last, and no
    request is made. *)
Lemma paginate_no_url (err : exn) (fuel page : nat) (acc : list value) :
  urlOf = Throw err ->
  loop (S fuel) username page acc
  = Some (acc, [ConsoleLog (FetchingPage page);
                ConsoleError (ErrorFetchingPage page err)]).
Proof. intros H. cbn [paginate]. rewrite H. reflexivity. Qed.

Lemma fetches_app (tr tr' : list event) :
  fetches (tr ++ tr') = fetches tr ++ fetches tr'.
Proof. apply flat_map_app. Qed.

Lemma fetches_pages_events (url : string) (pages : list (list value))
    (page : nat) :
  fetches (pages_events url page pages)
  = page_requests url page (List.length pages).
Proof.
  revert page. induction pages as [ | items pages IH]; intros page.
  - reflexivity.
  - cbn [pages_events]. rewrite !fetches_app, IH. reflexivity.
Qed.

Lemma page_requests_snoc (url : string) (first count : nat) :
  page_requests url first count ++ [(url, [("page", first + count)])]
  = page_requests url first (S count).
Proof.
  unfold page_requests. rewrite seq_S, map_app. reflexivity.
Qed.

Lemma page_requests_cons (url : string) (first count : nat) :
  (url, [("page", first)]) :: page_requests url (S first) count
  = page_requests url first (S count).
Proof. reflexivity. Qed.

Lemma page_requests_bound (url : string) (first count : nat) (u : string)
    (params : list (string * nat)) :
  In (u, params) (page_requests url first count) ->
  exists p, u = url /\ params = [("page", p)] /\ first <= p < first + count.
Proof.
  unfold page_requests. rewrite in_map_iff. intros (p & Hp & Hin).
  inversion Hp; subst. apply in_seq in Hin. eauto.
Qed.

Section WithUrl.

Variable url : string.
Hypothesis Hurl : urlOf = Ok url.

Local Abbreviation response page := (fetchJSON url [("page", page)]).

(** One iteration on a page that cannot be used: the request failed, or
    the response has no [data] array.  The loop ends there. *)
Lemma paginate_unusable (page : nat) :
  page_items (response page) = None ->
  exists d,
    loop_event (ConsoleError d) = true
    /\ forall (fuel : nat) (acc : list value),
         loop (S fuel) username page acc
         = Some (acc, [ConsoleLog (FetchingPage page);
                       Fetch url [("page", page)];
                       ConsoleError d]).
Proof.
  unfold page_items. cbn [paginate]. rewrite Hurl.
  destruct (response page) as [resp | err]; cbn [rbind].
  - destruct (get resp "data") as [data | err]; cbn [rbind].
    + destruct data; try discriminate; intros _;
        cbn [Array_isArray negb]; rewrite orb_true_r;
        (eexists; split; [ | reflexivity ]; reflexivity).
    + intros _. eexists; split; [ | reflexivity ]; reflexivity.
  - intros _. eexists; split; [ | reflexivity ]; reflexivity.
Qed.

(** One iteration on a page with a [data] array. *)
Lemma paginate_usable (fuel page : nat) (acc items : list value) :
  page_items (response page) = Some items ->
  loop (S fuel) username page acc
  = if (0 <? List.length items)%nat then
      match loop fuel username (S page) (acc ++ items) with
      | Some (all, tr) =>
          Some (all, page_events url page (List.length items)
                       ++ [Sleep 1000] ++ tr)
      | None => None
      end
    else Some (acc ++ items, page_events url page (List.length items)).
Proof.
  intros H. apply page_items_Some in H. destruct H as (resp & Hr & Hd).
  cbn [paginate]. rewrite Hurl, Hr. cbn [rbind]. rewrite Hd. cbn [rbind].
  cbn [truthy Array_isArray negb orb items_of].
  rewrite Nat.sub_succ, Nat.sub_0_r. reflexivity.
Qed.

Lemma paginate_last_page (fuel page : nat) (acc : list value) :
  page_items (response page) = Some [] ->
  loop (S fuel) username page acc = Some (acc, page_events url page 0).
Proof.
  intros H. rewrite (paginate_usable _ _ _ _ H). cbn.
  rewrite app_nil_r. reflexivity.
Qed.

(** A run of usable, non-empty pages is walked through page by page; the
    loop goes on behind it with their items appended. *)
Lemma paginate_through (pages : list (list value)) :
  forall (fuel page : nat) (acc : list value),
    Forall (fun items => items <> []) pages ->
    (forall n items, nth_error pages n = Some items ->
                     page_items (response (page + n)) = Some items) ->
    loop (List.length pages + fuel) username page acc
    = match loop fuel username (page + List.length pages)
              (acc ++ List.concat pages) with
      | Some (all, tr) => Some (all, pages_events url page pages ++ tr)
      | None => None
      end.
Proof.
  induction pages as [ | items pages IH]; intros fuel page acc Hne Hp.
  - cbn. rewrite Nat.add_0_r, app_nil_r.
    destruct (loop fuel username page acc) as [[all tr] | ]; reflexivity.
  - inversion Hne as [ | ? ? Hi Hrest]; subst.
    assert (H0 : page_items (response page) = Some items).
    { rewrite <- (Nat.add_0_r page). apply Hp. reflexivity. }
    cbn [List.length Nat.add]. rewrite (paginate_usable _ _ _ _ H0).
    destruct items as [ | item items']; [ contradiction | ].
    cbn [List.length Nat.ltb Nat.leb].
    rewrite IH; [ | exact Hrest | ].
    + cbn [List.concat]. rewrite <- app_assoc, Nat.add_succ_r.
      destruct (loop fuel username _ _) as [[all tr] | ]; [ | reflexivity ].
      cbn [pages_events]. rewrite <- !app_assoc. reflexivity.
    + intros n its Hn. rewrite Nat.add_succ_comm. apply Hp. exact Hn.
Qed.

(** The loop emits no other events than its own. *)
Lemma paginate_events_url (fuel : nat) :
  forall (page : nat) (acc all : list value) (tr : list event),
    loop fuel username page acc = Some (all, tr) ->
    Forall (fun e => loop_event e = true) tr.
Proof.
  induction fuel as [ | fuel IH]; intros page acc all tr H.
  - discriminate.
  - destruct (page_items (response page)) as [items | ] eqn:E.
    + rewrite (paginate_usable _ _ _ _ E) in H.
      destruct (0 <? List.length items)%nat.
      * destruct (loop fuel username (S page) (acc ++ items))
          as [[all' tr'] | ] eqn:El; try discriminate.
        inversion H; subst.
        repeat (constructor; [ reflexivity | ]). eapply IH, El.
      * inversion H; subst. repeat (constructor; try reflexivity).
    + destruct (paginate_unusable page E) as (d & Hk & Hd).
      rewrite Hd in H. inversion H; subst.
      repeat (constructor; try reflexivity). exact Hk.
Qed.

(** More fuel does not change what the loop returns. *)
Lemma paginate_fuel_mono_url (fuel : nat) :
  forall (page : nat) (acc all : list value) (tr : list event),
    loop fuel username page acc = Some (all, tr) ->
    loop (S fuel) username page acc = Some (all, tr).
Proof.
  induction fuel as [ | fuel IH]; intros page acc all tr H.
  - discriminate.
  - destruct (page_items (response page)) as [items | ] eqn:E.
    + rewrite (paginate_usable _ _ _ _ E) in H.
      rewrite (paginate_usable _ _ _ _ E).
      destruct (0 <? List.length items); [ | exact H ].
      destruct (loop fuel username (S page) (acc ++ items))
        as [[all' tr'] | ] eqn:El; [ | discriminate ].
      rewrite (IH _ _ _ _ El). exact H.
    + destruct (paginate_unusable page E) as (d & _ & Hd).
      rewrite Hd in H. rewrite Hd. exact H.
Qed.

(** Against a server whose every page holds some items the loop never
    ends: no amount of fuel yields a result. *)
Lemma paginate_runs_on (fuel : nat) :
  (forall page, exists item items,
      page_items (response page) = Some (item :: items)) ->
  forall (page : nat) (acc : list value),
    loop fuel username page acc = None.
Proof.
  intros Hall. induction fuel as [ | fuel IH]; intros page acc.
  - reflexivity.
  - destruct (Hall page) as (item & items & E).
    rewrite (paginate_usable _ _ _ _ E). cbn [List.length Nat.ltb Nat.leb].
    rewrite IH. reflexivity.
Qed.

Lemma paginate_accumulates (pages : list (list value)) (fuel : nat) :
  Forall (fun items => items <> []) pages ->
  (forall n items, nth_error (pages ++ [[]]) n = Some items ->
                   page_items (response (S n)) = Some items) ->
  (List.length pages < fuel)%nat ->
  exists tr,
    loop fuel username 1%nat [] = Some (List.concat pages, tr)
    /\ List.length (List.concat pages)
       = list_sum (map (@List.length value) pages)
    /\ fetches tr = page_requests url 1 (S (List.length pages)).
Proof.
  intros Hne Hp Hfuel.
  replace fuel with (List.length pages + S (fuel - S (List.length pages)))%nat
    by lia.
  rewrite paginate_through; [ | exact Hne | ].
  - rewrite paginate_last_page.
    + eexists. split; [ reflexivity | ]. split; [ apply length_concat | ].
      rewrite fetches_app, fetches_pages_events.
      apply (page_requests_snoc url 1).
    + replace (1 + List.length pages)%nat with (S (List.length pages))
        by reflexivity.
      apply Hp. rewrite nth_error_app2, Nat.sub_diag by lia. reflexivity.
  - intros n items Hn. apply (Hp n items).
    rewrite nth_error_app1; [ exact Hn | ].
    apply nth_error_Some. congruence.
Qed.

(** From [page] on, with page [k] empty [d] pages ahead: the loop ends
    within [d + 1] iterations, requests consecutive pages from [page],
    none beyond [k], and if it gets to page [k] that iteration is its
    last. *)
Lemma paginate_stops (k : nat) :
  page_items (response k) = Some [] ->
  forall (d page fuel : nat) (acc : list value),
    page + d = k -> d < fuel ->
    exists all tr n,
      loop fuel username page acc = Some (all, tr)
      /\ 1 <= n <= S d
      /\ fetches tr = page_requests url page n
      /\ (n = S d -> exists tr0, tr = tr0 ++ page_events url k 0).
Proof.
  intros Hk. induction d as [ | d IH]; intros page fuel acc Hpage Hfuel;
    (destruct fuel as [ | fuel]; [ lia | ]).
  - rewrite Nat.add_0_r in Hpage. subst page.
    rewrite (paginate_last_page _ _ _ Hk).
    exists acc, (page_events url k 0), 1. repeat split; try lia.
    intros _. exists []. reflexivity.
  - destruct (page_items (response page)) as [items | ] eqn:E.
    + rewrite (paginate_usable _ _ _ _ E).
      destruct items as [ | item items'].
      * exists (acc ++ []), (page_events url page 0), 1.
        cbn [List.length Nat.ltb Nat.leb]. repeat split; try lia.
      * cbn [List.length Nat.ltb Nat.leb].
        destruct (IH (S page) fuel (acc ++ item :: items'))
          as (all & tr & n & Hl & Hn & Hf & Hlast); try lia.
        rewrite Hl. exists all. eexists. exists (S n).
        split; [ reflexivity | ]. split; [ lia | ]. split.
        -- rewrite !fetches_app, Hf. reflexivity.
        -- intros Hn'. destruct Hlast as [tr0 ->]; [ lia | ].
           eexists. rewrite !app_assoc. reflexivity.
    + destruct (paginate_unusable page E) as (diag & _ & Hd).
      rewrite Hd. do 2 eexists. exists 1.
      split; [ reflexivity | ]. repeat split; try lia.
Qed.

End WithUrl.

(** The loop emits no other events than its own. *)
Lemma paginate_events (fuel page : nat) (acc all : list value)
    (tr : list event) :
  loop fuel username page acc = Some (all, tr) ->
  Forall (fun e => loop_event e = true) tr.
Proof.
  destruct urlOf as [url | err] eqn:E.
  - apply (paginate_events_url url E).
  - destruct fuel as [ | fuel]; [ discriminate | ].
    rewrite (paginate_no_url err _ _ _ E). intros H. inversion H; subst.
    repeat (constructor; try reflexivity).
Qed.

(** More fuel does not change what the loop returns. *)
Lemma paginate_fuel_mono (fuel page : nat) (acc all : list value)
    (tr : list event) :
  loop fuel username page acc = Some (all, tr) ->
  loop (S fuel) username page acc = Some (all, tr).
Proof.
  destruct urlOf as [url | err] eqn:E.
  - apply (paginate_fuel_mono_url url E).
  - destruct fuel as [ | fuel]; [ discriminate | ].
    rewrite !(paginate_no_url err _ _ _ E). auto.
Qed.

(** C2: when pages 1 to [n] each hold some items and page [n + 1] holds
    none, all of them usable responses, the loop ends with the pages'
    items concatenated in page order, as many as the pages hold together,
    having requested pages 1 to [n + 1] once each. *)
Theorem accumulation_is_concatenation (pages : list (list value))
    (fuel : nat) :
  Forall (fun items => items <> []) pages ->
  (forall n items, nth_error (pages ++ [[]]) n = Some items ->
                   page_items (pageOf (S n)) = Some items) ->
  (List.length pages < fuel)%nat ->
  exists url tr,
    urlOf = Ok url
    /\ loop fuel username 1%nat [] = Some (List.concat pages, tr)
    /\ List.length (List.concat pages)
       = list_sum (map (@List.length value) pages)
    /\ fetches tr = page_requests url 1 (S (List.length pages)).
Proof.
  intros Hne Hp Hfuel.
  destruct (fetchPage_url (S (List.length pages)) []) as [url Hurl].
  { apply Hp. rewrite nth_error_app2, Nat.sub_diag by lia. reflexivity. }
  destruct (paginate_accumulates url Hurl pages fuel Hne) as (tr & H);
    [ | exact Hfuel | exists url, tr; split; [ exact Hurl | exact H ] ].
  intros n items Hn. rewrite <- (fetchPage_at url _ Hurl). apply Hp, Hn.
Qed.

(** C3: if page [k] comes back with an empty item array, the loop ends
    after at most [k] requests, for pages 1, 2, ... in turn and never for a
    page beyond [k]; when it gets to page [k], the request for page [k] and
    the line reporting its zero items are the last things it does. *)
Theorem stops_at_empty_page (k fuel : nat) :
  1 <= k ->
  page_items (pageOf k) = Some [] ->
  k <= fuel ->
  exists url all tr n,
    urlOf = Ok url
    /\ loop fuel username 1 [] = Some (all, tr)
    /\ 1 <= n <= k
    /\ fetches tr = page_requests url 1 n
    /\ (forall u params p, In (u, params) (fetches tr) ->
                           In ("page", p) params -> p <= k)
    /\ (n = k -> exists tr0, tr = tr0 ++ page_events url k 0).
Proof.
  intros Hk1 Hk Hfuel.
  destruct (fetchPage_url k [] Hk) as [url Hurl].
  rewrite (fetchPage_at url _ Hurl) in Hk.
  destruct (paginate_stops url Hurl k Hk (k - 1) 1 fuel [])
    as (all & tr & n & Hl & Hn & Hf & Hlast); try lia.
  exists url, all, tr, n. split; [ exact Hurl | ].
  split; [ exact Hl | ]. split; [ lia | ].
  split; [ exact Hf | ]. split.
  - intros u params p Hin Hp. rewrite Hf in Hin.
    apply page_requests_bound in Hin.
    destruct Hin as (q & _ & -> & Hq).
    destruct Hp as [Hp | []]. inversion Hp; subst. lia.
  - intros ->. apply Hlast. lia.
Qed.

End Pagination.

(** ** The run *)

Lemma writes_app (tr tr' : list event) :
  writes (tr ++ tr') = writes tr ++ writes tr'.
Proof. apply flat_map_app. Qed.

Lemma caught_app (tr tr' : list event) :
  caught (tr ++ tr') = caught tr ++ caught tr'.
Proof. apply flat_map_app. Qed.

Lemma loop_events_quiet (tr : list event) :
  Forall (fun e => loop_event e = true) tr ->
  writes tr = [] /\ caught tr = []
  /\ Forall (fun e => diagnostic e = true /\ statistics_line e = false) tr.
Proof.
  induction 1 as [ | e tr He _ (Hw & Hc & Hd)].
  - repeat split; constructor.
  - destruct e as [ | d | d | | | ]; try discriminate;
      try (destruct d; try discriminate);
      cbn; rewrite ?Hw, ?Hc; repeat split; auto.
Qed.

Section RunProperties.

Variable Number_toString : float -> string.
Variable Date_parse : string -> option Z.
Variable argumentLimit : nat.
Variable fetchJSON : string -> list (string * nat) -> result value.
Variable now : Z.

Local Abbreviation urlOf username := (statusesUrl Number_toString username).
Local Abbreviation pageOf username page :=
  (fetchPage Number_toString fetchJSON username page).
Local Abbreviation loop := (paginate Number_toString fetchJSON).
Local Abbreviation identify_ := (identify Number_toString fetchJSON).
Local Abbreviation export_ :=
  (export Number_toString Date_parse argumentLimit now).
Local Abbreviation exportStatuses_ :=
  (exportStatuses Number_toString Date_parse argumentLimit now).
Local Abbreviation run_ :=
  (run Number_toString Date_parse argumentLimit fetchJSON now).
Local Abbreviation statusDate_ := (statusDate Number_toString Date_parse).
Local Abbreviation statusDates_ := (statusDates Number_toString Date_parse).
Local Abbreviation fileOf name := (name +++ "_statuses.json").

(** What a successful start of the run has established. *)
Lemma identify_ok (tr0 : list event) (userProfile username : value) :
  identify_ = (tr0, Ok (userProfile, username)) ->
  nullish userProfile = false
  /\ nullish (prop userProfile "data") = false
  /\ tr0 = [ ConsoleLog FetchingProfile;
             Fetch profileUrl [];
             ConsoleLog (UserProfile userProfile);
             ConsoleLog (FoundUser (prop (prop userProfile "data") "id")
                           username) ].
Proof.
  unfold identify. cbn.
  destruct (fetchJSON profileUrl []) as [up | ]; cbn; try discriminate.
  destruct (get2 up "data" "id") as [id | ] eqn:Eid; cbn; try discriminate.
  destruct (get2 up "data" "username") as [u | ]; cbn; try discriminate.
  destruct (ToString Number_toString id); cbn; try discriminate.
  destruct (ToString Number_toString u); cbn; try discriminate.
  intros H. inversion H; subst.
  apply get2_ok_inv in Eid. destruct Eid as (Hup & Hdata & ->). auto.
Qed.

(** The line that prints the user name has turned it into text, so the
    URL of the statuses can be built. *)
Lemma identify_names (tr0 : list event) (userProfile username : value) :
  identify_ = (tr0, Ok (userProfile, username)) ->
  exists name,
    ToString Number_toString username = Ok name
    /\ urlOf username
       = Ok ("https://traewelling.de/api/v1/user/" +++ name +++ "/statuses").
Proof.
  unfold identify, statusesUrl. cbn.
  destruct (fetchJSON profileUrl []) as [up | ]; cbn; try discriminate.
  destruct (get2 up "data" "id") as [id | ]; cbn; try discriminate.
  destruct (get2 up "data" "username") as [u | ]; cbn; try discriminate.
  destruct (ToString Number_toString id); cbn; try discriminate.
  destruct (ToString Number_toString u) as [name | ] eqn:En; cbn;
    try discriminate.
  intros H. inversion H; subst. exists name. rewrite En. split; reflexivity.
Qed.

Lemma export_empty (userProfile username : value) :
  export_ userProfile username [] = ([ConsoleLog (Found 0)], Ok tt).
Proof. reflexivity. Qed.

Lemma export_nonempty (userProfile username : value)
    (allStatuses : list value) :
  allStatuses <> [] ->
  export_ userProfile username allStatuses
  = bind (emit (ConsoleLog (Found (List.length allStatuses))))
         (fun _ => exportStatuses_ userProfile username allStatuses).
Proof.
  intros H. destruct allStatuses; [ contradiction | ]. reflexivity.
Qed.

Lemma run_after_loop (fuel : nat) (tr0 tr1 : list event)
    (userProfile username : value) (allStatuses : list value) :
  identify_ = (tr0, Ok (userProfile, username)) ->
  loop fuel username 1%nat [] = Some (allStatuses, tr1) ->
  run_ fuel
  = Some (catch_all
            (tr0 ++ tr1 ++ fst (export_ userProfile username allStatuses))
            (snd (export_ userProfile username allStatuses))).
Proof.
  intros Hid Hl. unfold run. rewrite Hid, Hl.
  destruct (export_ userProfile username allStatuses). reflexivity.
Qed.

(** What the code after the loop can come to: nothing but the count for
    an empty list; a throw before anything is written; or the full
    sequence ending in the write and the closing line. *)
Lemma export_outcome (userProfile username : value)
    (allStatuses : list value) :
  (allStatuses = []
   /\ export_ userProfile username allStatuses
      = ([ConsoleLog (Found 0)], Ok tt))
  \/ (allStatuses <> []
      /\ exists pre e,
           export_ userProfile username allStatuses = (pre, Throw e)
           /\ writes pre = [] /\ caught pre = []
           /\ fetches pre = [] /\ sleeps pre = [])
  \/ (allStatuses <> []
      /\ exists dates earliest latest isoEarliest isoLatest doc name text,
           statusDates_ allStatuses = Ok dates
           /\ earliestOf argumentLimit dates = Ok earliest
           /\ latestOf argumentLimit dates = Ok latest
           /\ toISOString earliest = Ok isoEarliest
           /\ toISOString latest = Ok isoLatest
           /\ exportData userProfile allStatuses earliest latest now = Ok doc
           /\ ToString Number_toString username = Ok name
           /\ JSON_stringify Number_toString doc = Some text
           /\ export_ userProfile username allStatuses
              = ([ ConsoleLog (Found (List.length allStatuses));
                   ConsoleLog (SampleStatus (hd VUndefined allStatuses));
                   ConsoleLog DateRangeHeader;
                   ConsoleLog (Earliest isoEarliest);
                   ConsoleLog (Latest isoLatest);
                   ConsoleLog (MonthStatistics dates);
                   WriteFile (fileOf name) text;
                   ConsoleLog (Done (List.length allStatuses)
                                 (fileOf name)) ],
                 Ok tt)).
Proof.
  destruct allStatuses as [ | s ss]; [ left; split; reflexivity | right ].
  set (all := s :: ss).
  assert (Hne : all <> []) by discriminate.
  unfold export. cbn [List.length Nat.ltb Nat.leb all].
  fold all. unfold exportStatuses. cbn [bind lift emit ret].
  destruct (statusDates_ all) as [dates | e1] eqn:Hd.
  2: { left. split; [ exact Hne | ]. do 2 eexists.
       split; [ reflexivity | ]. repeat split. }
  destruct (earliestOf argumentLimit dates) as [earliest | e2] eqn:He.
  2: { left. split; [ exact Hne | ]. do 2 eexists.
       split; [ reflexivity | ]. repeat split. }
  destruct (latestOf argumentLimit dates) as [latest | e3] eqn:Hl.
  2: { left. split; [ exact Hne | ]. do 2 eexists.
       split; [ reflexivity | ]. repeat split. }
  destruct (toISOString earliest) as [isoE | e4] eqn:HisoE.
  2: { left. split; [ exact Hne | ]. do 2 eexists.
       split; [ reflexivity | ]. repeat split. }
  destruct (toISOString latest) as [isoL | e5] eqn:HisoL.
  2: { left. split; [ exact Hne | ]. do 2 eexists.
       split; [ reflexivity | ]. repeat split. }
  destruct (exportData userProfile all earliest latest now)
    as [doc | e6] eqn:Hdoc.
  2: { left. split; [ exact Hne | ]. do 2 eexists.
       split; [ reflexivity | ]. repeat split. }
  destruct (ToString Number_toString username) as [name | e7] eqn:Hname.
  2: { left. split; [ exact Hne | ]. do 2 eexists.
       split; [ reflexivity | ]. repeat split. }
  cbn [rmap rbind app].
  destruct (JSON_stringify Number_toString doc) as [text | ] eqn:Ht.
  2: { left. split; [ exact Hne | ]. do 2 eexists.
       split; [ reflexivity | ]. repeat split. }
  right. split; [ exact Hne | ].
  exists dates, earliest, latest, isoE, isoL, doc, name, text.
  repeat split; assumption.
Qed.


(** C4 (as amended): when pages 1 to [N - 1] are usable and hold items
    and page [N] fails or has no [data] array, the loop ends having
    requested pages 1 to [N] once each, and the rest of the run works on
    exactly the items of pages 1 to [N - 1]: through statistics, transform
    and write when there are any, and down the zero-record path when
    [N] is 1. *)
Theorem failed_page_ends_loop (pages : list (list value)) (fuel : nat)
    (tr0 : list event) (userProfile username : value) :
  identify_ = (tr0, Ok (userProfile, username)) ->
  Forall (fun items => items <> []) pages ->
  (forall n items, nth_error pages n = Some items ->
                   page_items (pageOf username (S n)) = Some items) ->
  page_items (pageOf username (S (List.length pages))) = None ->
  (List.length pages < fuel)%nat ->
  exists url tr,
    urlOf username = Ok url
    /\ loop fuel username 1%nat [] = Some (List.concat pages, tr)
    /\ fetches tr = page_requests url 1 (S (List.length pages))
    /\ run_ fuel
       = Some (catch_all
                 (tr0 ++ tr
                    ++ fst (export_ userProfile username (List.concat pages)))
                 (snd (export_ userProfile username (List.concat pages))))
    /\ (pages = [] ->
        export_ userProfile username (List.concat pages)
        = ([ConsoleLog (Found 0)], Ok tt))
    /\ (pages <> [] ->
        export_ userProfile username (List.concat pages)
        = bind (emit (ConsoleLog (Found (List.length (List.concat pages)))))
               (fun _ =>
                  exportStatuses_ userProfile username (List.concat pages))).
Proof.
  intros Hid Hne Hp Hfail Hfuel.
  destruct (identify_names _ _ _ Hid) as (name & _ & Hurl).
  set (url := "https://traewelling.de/api/v1/user/" +++ name +++ "/statuses")
    in Hurl.
  rewrite (fetchPage_at _ _ _ url _ Hurl) in Hfail.
  destruct (paginate_unusable Number_toString fetchJSON username url Hurl
              (S (List.length pages)) Hfail) as (d & _ & Hd).
  assert (Hl : loop fuel username 1%nat []
               = Some (List.concat pages,
                       pages_events url 1 pages
                         ++ [ ConsoleLog (FetchingPage (S (List.length pages)));
                              Fetch url [("page", S (List.length pages))];
                              ConsoleError d ])).
  { replace fuel
      with (List.length pages + S (fuel - S (List.length pages)))%nat
      at 1 by lia.
    rewrite (paginate_through Number_toString fetchJSON username url Hurl);
      [ | exact Hne | ].
    - cbn [app Nat.add]. rewrite Hd. reflexivity.
    - intros n items Hn. rewrite <- (fetchPage_at _ _ _ url _ Hurl).
      apply Hp, Hn. }
  exists url. eexists. split; [ exact Hurl | ].
  split; [ exact Hl | ]. split; [ | split; [ | split ] ].
  - rewrite fetches_app, fetches_pages_events.
    apply (page_requests_snoc url 1).
  - apply run_after_loop; assumption.
  - intros ->. reflexivity.
  - intros Hpages. apply export_nonempty.
    destruct pages as [ | items pages']; [ contradiction | ].
    inversion Hne; subst. destruct items; [ contradiction | discriminate ].
Qed.

(** C8: a run whose pagination ends with no status at all does nothing
    after the loop but print the count: no statistics, no transform, no
    file written, no error caught. *)
Theorem zero_record_run (fuel : nat) (tr0 tr1 : list event)
    (userProfile username : value) :
  identify_ = (tr0, Ok (userProfile, username)) ->
  loop fuel username 1%nat [] = Some ([], tr1) ->
  export_ userProfile username [] = ([ConsoleLog (Found 0)], Ok tt)
  /\ run_ fuel = Some (tr0 ++ tr1 ++ [ConsoleLog (Found 0)])
  /\ writes (tr0 ++ tr1 ++ [ConsoleLog (Found 0)]) = []
  /\ caught (tr0 ++ tr1 ++ [ConsoleLog (Found 0)]) = []
  /\ Forall (fun e => diagnostic e = true /\ statistics_line e = false)
            (tr0 ++ tr1 ++ [ConsoleLog (Found 0)]).
Proof.
  intros Hid Hl. split; [ reflexivity | ].
  split; [ rewrite (run_after_loop _ _ _ _ _ _ Hid Hl); reflexivity | ].
  destruct (identify_ok _ _ _ Hid) as (_ & _ & ->).
  destruct (loop_events_quiet tr1
              (paginate_events _ _ _ _ _ _ _ _ Hl)) as (Hw & Hc & Hd).
  rewrite !writes_app, !caught_app, Hw, Hc.
  repeat split.
  repeat (constructor; [ split; reflexivity | ]).
  apply Forall_app. split; [ exact Hd | ].
  constructor; [ split; reflexivity | constructor ].
Qed.






End RunProperties.

(** * The properties on the sample data *)

Section Samples.

Local Open Scope nat_scope.

Local Abbreviation NT := Sample.Number_toString.
Local Abbreviation DP := Sample.Date_parse.
Local Abbreviation LIMIT := Sample.argumentLimit.
Local Abbreviation alice := (VStr "alice").

(** One page of two statuses, then the empty page. *)
Local Abbreviation server :=
  (Sample.serve (Ok Sample.userProfile) [Sample.paged Sample.page1]).

(** The second page fails. *)
Local Abbreviation flaky :=
  (Sample.serve (Ok Sample.userProfile)
     [Sample.paged Sample.page1; Throw (Rejected "HTTP 500")]).

(** The first page fails. *)
Local Abbreviation down :=
  (Sample.serve (Ok Sample.userProfile) [Throw (Rejected "HTTP 500")]).

(** The user has no status. *)
Local Abbreviation nothing := (Sample.serve (Ok Sample.userProfile) []).

(** One page of two hundred thousand statuses. *)
Local Abbreviation archive :=
  (Sample.serve (Ok Sample.userProfile) [Sample.paged Sample.many]).

(** C1 as stated fails: two runs on the same profile and the same
    statuses, one second apart, write different files. *)
Lemma exportedAt_differs_between_runs :
  exists tr tr' path text text',
    run NT DP LIMIT server 1704448800000 2 = Some tr
    /\ run NT DP LIMIT server 1704448801000 2 = Some tr'
    /\ writes tr = [(path, text)]
    /\ writes tr' = [(path, text')]
    /\ text <> text'.
Proof.
  do 5 eexists.
  split; [ vm_compute; reflexivity | ].
  split; [ vm_compute; reflexivity | ].
  split; [ vm_compute; reflexivity | ].
  split; [ vm_compute; reflexivity | ].
  apply String.eqb_neq. vm_compute. reflexivity.
Qed.

Lemma accumulation_is_concatenation_witness :
  exists tr,
    statusesUrl NT alice = Ok Sample.statusesUrl
    /\ paginate NT server 2 alice 1 [] = Some (Sample.page1, tr)
    /\ List.length Sample.page1 = 2
    /\ fetches tr = [ (Sample.statusesUrl, [("page", 1)]);
                      (Sample.statusesUrl, [("page", 2)]) ].
Proof.
  destruct (accumulation_is_concatenation NT server alice [Sample.page1] 2)
    as (url & tr & Hurl & Hl & Hlen & Hf).
  - repeat constructor. discriminate.
  - intros [ | [ | n]] items H; cbn in H.
    + injection H as <-. reflexivity.
    + injection H as <-. reflexivity.
    + destruct n; discriminate H.
  - cbn. lia.
  - exists tr. vm_compute in Hurl. injection Hurl as <-.
    split; [ reflexivity | ]. split; [ exact Hl | ].
    split; [ exact Hlen | exact Hf ].
Defined.

Lemma stops_at_empty_page_witness :
  exists all tr n,
    paginate NT server 2 alice 1 [] = Some (all, tr)
    /\ 1 <= n <= 2
    /\ fetches tr = page_requests Sample.statusesUrl 1 n
    /\ (forall u params p, In (u, params) (fetches tr) ->
                           In ("page", p) params -> p <= 2)
    /\ (n = 2 ->
        exists tr0, tr = tr0 ++ page_events Sample.statusesUrl 2 0).
Proof.
  destruct (stops_at_empty_page NT server alice 2 2)
    as (url & all & tr & n & Hurl & H).
  - lia.
  - reflexivity.
  - lia.
  - vm_compute in Hurl. injection Hurl as <-.
    exists all, tr, n. exact H.
Defined.

(** C4 as stated fails for page 1: when the first page request fails
    the run goes on to no statistics and no write. *)
Lemma failed_first_page_exports_nothing :
  exists tr,
    run NT DP LIMIT down 1704448800000 1 = Some tr
    /\ fetches tr = [ (profileUrl, []); (Sample.statusesUrl, [("page", 1)]) ]
    /\ writes tr = []
    /\ filter statistics_line tr = [].
Proof. eexists. split; [ vm_compute; reflexivity | ]. repeat split. Qed.

Lemma failed_page_ends_loop_witness :
  exists tr tr' text,
    paginate NT flaky 2 alice 1 [] = Some (Sample.page1, tr)
    /\ fetches tr = [ (Sample.statusesUrl, [("page", 1)]);
                      (Sample.statusesUrl, [("page", 2)]) ]
    /\ run NT DP LIMIT flaky 1704448800000 2 = Some tr'
    /\ writes tr' = [("alice_statuses.json", text)].
Proof.
  destruct (failed_page_ends_loop NT DP LIMIT flaky 1704448800000
              [Sample.page1] 2 (fst (identify NT flaky))
              Sample.userProfile alice)
    as (url & tr & Hurl & Hl & Hf & Hrun & _ & _).
  - reflexivity.
  - repeat constructor. discriminate.
  - intros [ | n] items H; cbn in H.
    + injection H as <-. reflexivity.
    + destruct n; discriminate H.
  - reflexivity.
  - cbn. lia.
  - vm_compute in Hurl. injection Hurl as <-.
    exists tr. do 2 eexists.
    split; [ exact Hl | ]. split; [ exact Hf | ].
    split; [ vm_compute; reflexivity | ].
    vm_compute. reflexivity.
Defined.

(** The failing run: the one page of the user holds two hundred thousand
    statuses.  The loop gathers them all, and the date range is never
    computed: the run ends with the [RangeError] of the spread call. *)
Lemma date_range_up_to_argument_limit_witness :
  rbind (statusDates NT DP Sample.many) (earliestOf LIMIT) = Throw RangeError
  /\ rbind (statusDates NT DP Sample.many) (latestOf LIMIT)
     = Throw RangeError
  /\ exists tr1,
       paginate NT archive 2 alice 1 [] = Some (Sample.many, tr1)
       /\ run NT DP LIMIT archive 1704448800000 2
          = Some (fst (identify NT archive) ++ tr1
                    ++ [ ConsoleLog (Found (List.length Sample.many));
                         ConsoleLog (SampleStatus (hd VUndefined Sample.many));
                         ConsoleError (Error RangeError) ]).
Proof.
  assert (Hmany : Sample.many <> []).
  { intros H. apply (f_equal (@List.length value)) in H.
    unfold Sample.many in H. rewrite repeat_length in H.
    cbn [List.length] in H. lia. }
  destruct (date_range_up_to_argument_limit NT DP LIMIT Sample.many
              (repeat 1707550200000%Z (N.to_nat 200000)))
    as [_ H].
  - exact Hmany.
  - apply Forall2_repeat. vm_compute. reflexivity.
  - destruct H as (He & Hl & Hx).
    + unfold Sample.many, Sample.argumentLimit. rewrite repeat_length. lia.
    + split; [ exact He | ]. split; [ exact Hl | ].
      destruct (paginate_accumulates NT archive alice Sample.statusesUrl
                  eq_refl [Sample.many] 2) as (tr1 & Hloop & _).
      * constructor; [ exact Hmany | constructor ].
      * intros [ | [ | n]] items Hn; cbn [nth_error app] in Hn.
        -- injection Hn as <-. reflexivity.
        -- injection Hn as <-. reflexivity.
        -- destruct n; discriminate Hn.
      * cbn [List.length]. lia.
      * cbn [List.concat] in Hloop. rewrite app_nil_r in Hloop.
        exists tr1. split; [ exact Hloop | ].
        rewrite (run_after_loop NT DP LIMIT archive 1704448800000 2
                   (fst (identify NT archive)) tr1 Sample.userProfile alice
                   Sample.many eq_refl Hloop).
        rewrite Hx. cbn [fst snd catch_all].
        rewrite <- !app_assoc. reflexivity.
Defined.

(** Within the limit: the range of the two sample statuses. *)
Example sample_date_range :
  rbind (statusDates NT DP Sample.page1) (earliestOf LIMIT)
  = Ok (Some 1704448800000%Z)
  /\ rbind (statusDates NT DP Sample.page1) (latestOf LIMIT)
     = Ok (Some 1707550200000%Z).
Proof. split; vm_compute; reflexivity. Qed.

Lemma fixed_literal_fields_witness :
  exists doc user,
    exportData Sample.userProfile Sample.page1
      (Some 1704448800000%Z) (Some 1707550200000%Z) 1704448800000 = Ok doc
    /\ get2 Sample.userProfile "data" "following" = Ok (VBool true)
    /\ get2 Sample.userProfile "data" "muted" = Ok (VBool true)
    /\ get2 doc "meta" "user" = Ok user
    /\ get user "following" = Ok (VBool false)
    /\ get user "muted" = Ok (VBool false)
    /\ get user "pointsEnabled" = Ok (VBool true).
Proof.
  eexists.
  assert (H : exportData Sample.userProfile Sample.page1
                (Some 1704448800000%Z) (Some 1707550200000%Z) 1704448800000
              = Ok _) by (vm_compute; reflexivity).
  destruct (fixed_literal_fields _ _ _ _ _ _ H)
    as (user & Hu & Hp & _ & Hm & Hf & _).
  exists user. repeat split; assumption || reflexivity.
Defined.

Lemma optional_fields_default_witness :
  exists entry st trip,
    transformStatus (Sample.status 10%float "2024-02-10T08:30:00+01:00")
    = Ok entry
    /\ get entry "status" = Ok st /\ get entry "trip" = Ok trip
    /\ get st "bodyMentions" = Ok (VArr [])
    /\ get st "tags" = Ok (VArr [])
    /\ get trip "stopovers" = Ok (VArr [])
    /\ present st "body" = true.
Proof.
  eexists.
  assert (H : transformStatus
                (Sample.status 10%float "2024-02-10T08:30:00+01:00")
              = Ok _) by (vm_compute; reflexivity).
  destruct (optional_fields_default _ _ H)
    as (st & trip & Hst & Htrip & Hb & _ & _ & _ & _ & Hm & Ht & Hs).
  exists st, trip. split; [ exact H | ].
  split; [ exact Hst | ]. split; [ exact Htrip | ].
  split; [ apply Hm; reflexivity | ].
  split; [ apply Ht; reflexivity | ].
  split; [ eapply Hs; reflexivity | exact Hb ].
Defined.

Lemma zero_record_run_witness :
  exists tr,
    run NT DP LIMIT nothing 1704448800000 1 = Some tr
    /\ writes tr = [] /\ caught tr = []
    /\ Forall (fun e => diagnostic e = true /\ statistics_line e = false) tr.
Proof.
  destruct (zero_record_run NT DP LIMIT nothing 1704448800000 1
              (fst (identify NT nothing))
              (page_events Sample.statusesUrl 1 0)
              Sample.userProfile alice)
    as (_ & Hrun & Hw & Hc & Hd).
  - reflexivity.
  - reflexivity.
  - eexists. split; [ exact Hrun | ]. auto.
Defined.

Lemma totals_copy_train_fields_witness :
  exists doc user,
    exportData Sample.userProfile Sample.page1
      (Some 1704448800000%Z) (Some 1707550200000%Z) 1704448800000 = Ok doc
    /\ get2 doc "meta" "user" = Ok user
    /\ get user "totalDistance" = Ok (VNum 1200)
    /\ get user "totalDuration" = Ok (VNum 90).
Proof.
  eexists.
  assert (H : exportData Sample.userProfile Sample.page1
                (Some 1704448800000%Z) (Some 1707550200000%Z) 1704448800000
              = Ok _) by (vm_compute; reflexivity).
  destruct (totals_copy_train_fields _ _ _ _ _ _ H)
    as (user & Hu & Hd1 & Hd2 & Ht1 & Ht2).
  exists user. split; [ exact H | ]. split; [ exact Hu | ].
  rewrite Hd1, Hd2, Ht1, Ht2. split; reflexivity.
Defined.



(** A status without a train stops the whole export: the read of
    [train.trip] throws, the outer [catch] reports it, no file is
    written. *)
Example trainless_status_stops_export :
  exists tr,
    run NT DP LIMIT
      (Sample.serve (Ok Sample.userProfile)
         [Sample.paged
            (Sample.page1
               ++ [VObj [("id", VNum 12);
                         ("createdAt", VStr "2024-03-01T12:00:00Z")]])])
      1704448800000 2 = Some tr
    /\ caught tr = [TypeError "trip"]
    /\ writes tr = [].
Proof. eexists. split; [ vm_compute; reflexivity | ]. split; reflexivity. Qed.

(** The scenario of two statuses on page 1 and none on page 2: two page
    requests, the range from 2024-01-05 to 2024-02-10, one file. *)
Example two_status_run :
  exists tr text,
    run NT DP LIMIT server 1704448800000 2 = Some tr
    /\ fetches tr = [ (profileUrl, []);
                      (Sample.statusesUrl, [("page", 1)]);
                      (Sample.statusesUrl, [("page", 2)]) ]
    /\ In (ConsoleLog (Earliest "2024-01-05T10:00:00.000Z")) tr
    /\ In (ConsoleLog (Latest "2024-02-10T07:30:00.000Z")) tr
    /\ writes tr = [("alice_statuses.json", text)].
Proof.
  do 2 eexists. split; [ vm_compute; reflexivity | ].
  split; [ reflexivity | ].
  split; [ cbn; tauto | ]. split; [ cbn; tauto | ]. reflexivity.
Qed.

End Samples.

(** * Further properties *)

(** ** [fetchJSON] *)

Lemma settle_settled (p : promise) (outcome : result value) :
  p <> Pending -> settle p outcome = p.
Proof. destruct p; cbn; congruence. Qed.

Lemma settle_not_pending (p : promise) (outcome : result value) :
  settle p outcome <> Pending.
Proof. destruct p, outcome; cbn; congruence. Qed.

Lemma append_nil_r (s : string) : s +++ EmptyString = s.
Proof. induction s as [ | c s IH]; cbn; congruence. Qed.

Lemma append_assoc (a b c : string) : (a +++ b) +++ c = a +++ (b +++ c).
Proof. induction a as [ | x a IH]; cbn; congruence. Qed.

Lemma quote_chars_app (s s' : string) :
  quote_chars (s +++ s') = quote_chars s +++ quote_chars s'.
Proof.
  induction s as [ | c s IH]; cbn; [ reflexivity | ].
  rewrite IH. symmetry. apply append_assoc.
Qed.

Section FetchProperties.

Variable Number_toString : float -> string.
Variable JSON_parse : string -> result value.
Variable Buffer_toString : string -> string.
Variable API_TOKEN : string.

Local Abbreviation handle := (on_body JSON_parse Buffer_toString).
Local Abbreviation fetch :=
  (fetchJSON_on Number_toString JSON_parse Buffer_toString API_TOKEN).

(** Once the promise is settled no event changes it. *)
Lemma settled_for_good (body : list body_event) :
  forall (p : promise) (data : string),
    p <> Pending -> fst (fold_left handle body (p, data)) = p.
Proof.
  induction body as [ | ev body IH]; intros p data Hp; [ reflexivity | ].
  cbn [fold_left]. destruct ev; cbn [on_body].
  - apply IH, Hp.
  - rewrite (settle_settled p _ Hp). apply IH, Hp.
  - rewrite (settle_settled p _ Hp). apply IH, Hp.
Qed.

(** Chunks are decoded one by one and appended in order of arrival. *)
Lemma chunks_collected (chunks : list string) :
  forall (p : promise) (data : string),
    fold_left handle (map OnData chunks) (p, data)
    = (p, data +++ String.concat EmptyString (map Buffer_toString chunks)).
Proof.
  induction chunks as [ | chunk chunks IH]; intros p data; cbn.
  - rewrite append_nil_r. reflexivity.
  - rewrite IH, append_assoc. f_equal. f_equal.
    destruct chunks as [ | chunk' chunks']; cbn; [ | reflexivity ].
    apply append_nil_r.
Qed.

(** X1: a response with a status other than 200 rejects the promise with
    the error "HTTP <status> when fetching <url>", whatever body arrives
    afterwards -- a body that is valid JSON does not resolve it. *)
Theorem non_200_rejects (url : string) (params : list (string * nat))
    (statusCode : N) (headers : value) (body : list body_event) :
  statusCode <> 200%N ->
  snd (fetch url params (Response statusCode headers body))
  = Failed (Rejected ("HTTP " +++ digits (Z.of_N statusCode)
                        +++ " when fetching " +++ requestUrl url params)).
Proof.
  intros Hcode. cbn [fetchJSON_on snd]. unfold on_response.
  apply N.eqb_neq in Hcode. rewrite Hcode. cbn [settle].
  apply settled_for_good. discriminate.
Qed.

(** X2: on a 200 response whose chunks are followed by ['end'], the
    promise is settled by [JSON.parse] of the decoded chunks put together
    in order: resolved with the parsed value, or rejected with the parse
    error; what comes after the ['end'] is of no effect. *)
Theorem ok_response_parses_body (url : string)
    (params : list (string * nat)) (headers : value)
    (chunks : list string) (rest : list body_event) :
  snd (fetch url params
         (Response 200 headers (map OnData chunks ++ OnEnd :: rest)))
  = settle Pending
      (JSON_parse
         (String.concat EmptyString (map Buffer_toString chunks))).
Proof.
  cbn [fetchJSON_on snd]. unfold on_response. cbn [N.eqb Pos.eqb].
  rewrite fold_left_app, chunks_collected. cbn [fold_left on_body].
  cbn [append]. apply settled_for_good, settle_not_pending.
Qed.

(** X3: the promise is settled once: the events after the first ['end']
    or ['error'] never change the outcome. *)
Theorem first_settlement_wins (url : string) (params : list (string * nat))
    (statusCode : N) (headers : value) (before after : list body_event)
    (ev : body_event) :
  settling ev = true ->
  snd (fetch url params
         (Response statusCode headers (before ++ ev :: after)))
  = snd (fetch url params (Response statusCode headers (before ++ [ev]))).
Proof.
  intros Hev. cbn [fetchJSON_on snd]. rewrite !fold_left_app.
  destruct (fold_left handle before _) as [p data].
  cbn [fold_left]. destruct ev; try discriminate Hev; cbn [on_body fst];
    apply settled_for_good, settle_not_pending.
Qed.

Lemma pending_iff_unsettled (body : list body_event) :
  forall (data : string),
    fst (fold_left handle body (Pending, data)) = Pending
    <-> forallb (fun ev => negb (settling ev)) body = true.
Proof.
  induction body as [ | ev body IH]; intros data; cbn [fold_left forallb].
  - tauto.
  - destruct ev; cbn [on_body settling negb andb].
    + apply IH.
    + rewrite settled_for_good by apply settle_not_pending.
      split; [ intros H; exfalso; eapply settle_not_pending, H
             | discriminate ].
    + rewrite settled_for_good by apply settle_not_pending.
      split; [ intros H; exfalso; eapply settle_not_pending, H
             | discriminate ].
Qed.

(** X4: the promise stays pending -- and the [await] on it never
    returns, there being no timeout -- exactly when no handler ever
    settles it: neither a response nor an error ever arrives, or the
    response has status 200 and neither ['end'] nor ['error'] ever
    arrives. *)
Theorem pending_iff_body_never_ends (url : string)
    (params : list (string * nat)) (x : exchange) :
  awaited (snd (fetch url params x)) = None
  <-> x = NoAnswer
      \/ exists headers body,
           x = Response 200 headers body
           /\ forallb (fun ev => negb (settling ev)) body = true.
Proof.
  assert (Haw : forall p, awaited p = None <-> p = Pending).
  { destruct p; cbn; split; congruence. }
  rewrite Haw. destruct x as [ | err | statusCode headers body];
    cbn [fetchJSON_on snd].
  - split; [ intros _; left; reflexivity | reflexivity ].
  - split; [ discriminate | ].
    intros [H | (h & b & H & _)]; discriminate H.
  - unfold on_response. destruct (N.eqb_spec statusCode 200) as [-> | Hne].
    + rewrite pending_iff_unsettled. split.
      * intros H. right. eauto.
      * intros [H | (h & b & H & Hb)]; [ discriminate H | ].
        injection H as <- <-. exact Hb.
    + rewrite settled_for_good by apply settle_not_pending. split.
      * intros H. exfalso. eapply settle_not_pending, H.
      * intros [H | (h & b & H & _)]; [ discriminate H | ].
        injection H as -> _ _. congruence.
Qed.

(** X5: every call prints the request headers, and with them the bearer
    token in clear (escaped as JSON text), before anything is sent. *)
Theorem token_is_logged (url : string) (params : list (string * nat))
    (x : exchange) :
  exists rest,
    fst (fetch url params x)
    = MakingRequest (requestUrl url params)
        :: WithHeaders
             (Some ("{" +++ newline +++ "  " +++ dquote +++ "Authorization"
                      +++ dquote +++ ": " +++ dquote +++ "Bearer "
                      +++ quote_chars API_TOKEN +++ dquote +++ ","
                      +++ newline +++ "  " +++ dquote +++ "Accept" +++ dquote
                      +++ ": " +++ dquote +++ "application/json" +++ dquote
                      +++ newline +++ "}"))
        :: rest.
Proof.
  assert (Htext :
    JSON_stringify Number_toString (requestHeaders API_TOKEN)
    = Some ("{" +++ newline +++ "  " +++ dquote +++ "Authorization"
              +++ dquote +++ ": " +++ dquote +++ "Bearer "
              +++ quote_chars API_TOKEN +++ dquote +++ ","
              +++ newline +++ "  " +++ dquote +++ "Accept" +++ dquote
              +++ ": " +++ dquote +++ "application/json" +++ dquote
              +++ newline +++ "}")).
  { unfold JSON_stringify, requestHeaders. cbn [serialize].
    unfold quote. rewrite (quote_chars_app "Bearer " API_TOKEN).
    cbn. rewrite !append_assoc. reflexivity. }
  destruct x as [ | err | statusCode headers body]; cbn [fetchJSON_on fst];
    rewrite Htext; eexists; reflexivity.
Qed.

End FetchProperties.

(** ** The month statistics *)

Lemma bump_sum (key : string) (counts : list (string * nat)) :
  list_sum (map snd (bump key counts)) = S (list_sum (map snd counts)).
Proof.
  induction counts as [ | [k n] counts IH]; [ reflexivity | ].
  cbn [bump]. destruct (String.eqb key k); [ reflexivity | ].
  change (n + list_sum (map snd (bump key counts))
          = S (n + list_sum (map snd counts)))%nat.
  rewrite IH. apply Nat.add_succ_r.
Qed.

Lemma count_of_bump (key key' : string) (counts : list (string * nat)) :
  count_of key (bump key' counts)
  = if String.eqb key key' then S (count_of key counts)
    else count_of key counts.
Proof.
  induction counts as [ | [k n] counts IH]; cbn.
  - destruct (String.eqb key key'); reflexivity.
  - destruct (String.eqb_spec key' k) as [-> | Hk]; cbn.
    + destruct (String.eqb key k); reflexivity.
    + destruct (String.eqb_spec key k) as [-> | Hk'].
      * rewrite (proj2 (String.eqb_neq k key')) by congruence. reflexivity.
      * exact IH.
Qed.

Lemma bump_keys (key : string) (counts : list (string * nat)) :
  (In key (map fst counts) /\ map fst (bump key counts) = map fst counts)
  \/ (~ In key (map fst counts)
      /\ map fst (bump key counts) = map fst counts ++ [key]).
Proof.
  induction counts as [ | [k n] counts IH]; cbn.
  - right. split; [ tauto | reflexivity ].
  - destruct (String.eqb_spec key k) as [-> | Hk]; cbn.
    + left. split; [ auto | reflexivity ].
    + destruct IH as [[Hin Heq] | [Hnin Heq]]; rewrite Heq.
      * left. split; [ auto | reflexivity ].
      * right. split; [ | reflexivity ].
        intros [Hk' | Hin]; [ congruence | contradiction ].
Qed.

Lemma bump_positive (key : string) (counts : list (string * nat)) :
  Forall (fun e => 1 <= snd e)%nat counts ->
  Forall (fun e => 1 <= snd e)%nat (bump key counts).
Proof.
  induction 1 as [ | [k n] counts Hn Hrest IH]; cbn.
  - constructor; [ cbn; lia | constructor ].
  - destruct (String.eqb key k); constructor; cbn in *;
      solve [ lia | assumption ].
Qed.

Section MonthProperties.

Local Open Scope nat_scope.

Variable LocalTZA : Z -> Z.

Local Abbreviation key := (monthKey LocalTZA).
Local Abbreviation tally :=
  (fold_left (fun counts d => bump (monthKey LocalTZA d) counts)).

Lemma tally_sum (dates : list Date) :
  forall counts,
    list_sum (map snd (tally dates counts))
    = list_sum (map snd counts) + List.length dates.
Proof.
  induction dates as [ | d dates IH]; intros counts; cbn [fold_left].
  - cbn. lia.
  - rewrite IH, bump_sum. cbn. lia.
Qed.

Lemma tally_count (k : string) (dates : list Date) :
  forall counts,
    count_of k (tally dates counts)
    = count_of k counts + count_occ string_dec (map key dates) k.
Proof.
  induction dates as [ | d dates IH]; intros counts; cbn [fold_left map].
  - cbn. lia.
  - rewrite IH, count_of_bump. cbn [count_occ].
    destruct (string_dec (key d) k) as [<- | Hne].
    + rewrite String.eqb_refl. lia.
    + rewrite (proj2 (String.eqb_neq k (key d))) by congruence. lia.
Qed.

Lemma tally_keys (dates : list Date) :
  forall counts,
    NoDup (map fst counts) ->
    Forall (fun e => 1 <= snd e) counts ->
    NoDup (map fst (tally dates counts))
    /\ Forall (fun e => 1 <= snd e) (tally dates counts)
    /\ (forall k, In k (map fst (tally dates counts))
                  <-> In k (map fst counts) \/ In k (map key dates)).
Proof.
  induction dates as [ | d dates IH]; intros counts Hnd Hpos;
    cbn [fold_left map].
  - repeat split; auto. cbn. tauto.
  - destruct (bump_keys (key d) counts) as [[Hin Heq] | [Hnin Heq]].
    + destruct (IH (bump (key d) counts)) as (H1 & H2 & H3).
      * rewrite Heq. exact Hnd.
      * apply bump_positive, Hpos.
      * split; [ exact H1 | ]. split; [ exact H2 | ].
        intros k. rewrite H3, Heq. cbn [In].
        split; [ tauto | ]. intros [H | [<- | H]]; auto.
    + destruct (IH (bump (key d) counts)) as (H1 & H2 & H3).
      * rewrite Heq. apply NoDup_app; [ exact Hnd | | ].
        -- constructor; [ cbn; tauto | constructor ].
        -- intros x Hx [<- | []]. contradiction.
      * apply bump_positive, Hpos.
      * split; [ exact H1 | ]. split; [ exact H2 | ].
        intros k. rewrite H3, Heq, in_app_iff. cbn [In]. tauto.
Qed.

(** X6: the month counts add up to the number of statuses: every date
    is counted in exactly one month. *)
Theorem month_counts_total (dates : list Date) :
  list_sum (map snd (monthCounts LocalTZA dates)) = List.length dates.
Proof. unfold monthCounts. rewrite tally_sum. reflexivity. Qed.

(** X7: the count kept for a month is the number of dates whose local
    year and month give that key, and 0 for a month no date falls in. *)
Theorem month_count_is_occurrences (dates : list Date) (k : string) :
  count_of k (monthCounts LocalTZA dates)
  = count_occ string_dec (map key dates) k.
Proof. unfold monthCounts. rewrite tally_count. reflexivity. Qed.

(** X8: the months counted are exactly the months of the dates, each
    once and with a count of at least one. *)
Theorem month_keys_distinct (dates : list Date) :
  NoDup (map fst (monthCounts LocalTZA dates))
  /\ Forall (fun e => 1 <= snd e) (monthCounts LocalTZA dates)
  /\ (forall k, In k (map fst (monthCounts LocalTZA dates))
                <-> In k (map key dates)).
Proof.
  destruct (tally_keys dates []) as (H1 & H2 & H3);
    [ constructor | constructor | ].
  split; [ exact H1 | ]. split; [ exact H2 | ].
  intros k. rewrite (H3 k). cbn. tauto.
Qed.

Lemma insert_entry_perm (e : string * nat) (l : list (string * nat)) :
  Permutation (e :: l) (insert_entry e l).
Proof.
  induction l as [ | x l IH]; cbn; [ apply Permutation_refl | ].
  destruct (String.leb (entry_text e) (entry_text x));
    [ apply Permutation_refl | ].
  eapply perm_trans; [ apply perm_swap | ]. apply perm_skip, IH.
Qed.

Lemma insert_entry_sorted (e : string * nat) (l : list (string * nat)) :
  Sorted (fun a b => String.leb (entry_text a) (entry_text b) = true) l ->
  Sorted (fun a b => String.leb (entry_text a) (entry_text b) = true)
         (insert_entry e l).
Proof.
  induction 1 as [ | x l Hs IH Hhd]; cbn.
  - repeat constructor.
  - destruct (String.leb (entry_text e) (entry_text x)) eqn:E.
    + constructor; [ constructor; assumption | constructor; exact E ].
    + assert (Hxe : String.leb (entry_text x) (entry_text e) = true).
      { destruct (String.leb_total (entry_text e) (entry_text x));
          congruence. }
      constructor; [ exact IH | ].
      destruct l as [ | y l]; cbn.
      * constructor. exact Hxe.
      * destruct (String.leb (entry_text e) (entry_text y));
          constructor; [ exact Hxe | ].
        inversion Hhd; assumption.
Qed.

(** X9: the lines printed under "Statuses by month:" are the month
    counts, each once, in ascending order of their text
    [month,count]. *)
Theorem month_report_sorted (dates : list Date) :
  Permutation (monthCounts LocalTZA dates) (monthReport LocalTZA dates)
  /\ Sorted (fun a b => String.leb (entry_text a) (entry_text b) = true)
            (monthReport LocalTZA dates).
Proof.
  unfold monthReport, sort_entries.
  induction (monthCounts LocalTZA dates) as [ | e l [IHp IHs]]; cbn.
  - split; constructor.
  - split.
    + eapply perm_trans; [ apply perm_skip, IHp | ].
      apply insert_entry_perm.
    + apply insert_entry_sorted, IHs.
Qed.

End MonthProperties.

(** ** The loop against any server *)

Lemma sleeps_app (tr tr' : list event) :
  sleeps (tr ++ tr') = sleeps tr ++ sleeps tr'.
Proof. apply flat_map_app. Qed.

Section LoopProperties.

Local Open Scope nat_scope.

Variable Number_toString : float -> string.
Variable fetchJSON : string -> list (string * nat) -> result value.
Variable username : value.

Local Abbreviation urlOf := (statusesUrl Number_toString username).
Local Abbreviation pageOf page :=
  (fetchPage Number_toString fetchJSON username page).
Local Abbreviation loop := (paginate Number_toString fetchJSON).

Lemma sleeps_pages_events (url : string) (pages : list (list value))
    (page : nat) :
  sleeps (pages_events url page pages)
  = repeat 1000%Z (List.length pages).
Proof.
  revert page. induction pages as [ | items pages IH]; intros page.
  - reflexivity.
  - cbn [pages_events]. rewrite !sleeps_app, IH. reflexivity.
Qed.

Section WithUrl.

Variable url : string.
Hypothesis Hurl : urlOf = Ok url.

Local Abbreviation response page := (fetchJSON url [("page", page)]).

(** Whatever the server does, a loop that ends has gone through [n]
    consecutive pages: all but the last held items, the last was empty or
    unusable. *)
Lemma paginate_shape (fuel : nat) :
  forall (page : nat) (acc all : list value) (tr : list event),
    loop fuel username page acc = Some (all, tr) ->
    exists n,
      1 <= n <= fuel
      /\ fetches tr = page_requests url page n
      /\ sleeps tr = repeat 1000%Z (n - 1)
      /\ all = acc ++ flat_map (fun p => items_on (response p)) (seq page n)
      /\ (forall p, page <= p < page + (n - 1) ->
                    last_page (response p) = false)
      /\ last_page (response (page + (n - 1))) = true.
Proof.
  induction fuel as [ | fuel IH]; intros page acc all tr H;
    [ discriminate | ].
  destruct (page_items (response page)) as [items | ] eqn:E.
  - rewrite (paginate_usable _ _ _ url Hurl _ _ _ _ E) in H.
    destruct items as [ | item items'].
    + cbn [List.length Nat.ltb Nat.leb] in H. injection H as <- <-.
      exists 1. cbn [Nat.sub seq flat_map repeat]. unfold items_on, last_page.
      rewrite Nat.add_0_r, E.
      split; [ lia | ]. repeat split. intros p Hp. lia.
    + cbn [List.length Nat.ltb Nat.leb] in H.
      destruct (loop fuel username (S page) (acc ++ item :: items'))
        as [[all' tr'] | ] eqn:El; [ | discriminate ].
      injection H as <- <-.
      destruct (IH _ _ _ _ El) as (n & Hn & Hf & Hs & Hall & Hmid & Hlast).
      exists (S n). split; [ lia | ].
      split.
      { unfold fetches. cbn [flat_map app]. fold (fetches tr').
        rewrite Hf. reflexivity. }
      split.
      { unfold sleeps. cbn [flat_map app]. fold (sleeps tr'). rewrite Hs.
        destruct n; [ lia | ]. cbn. rewrite Nat.sub_0_r. reflexivity. }
      split.
      { rewrite Hall. cbn [seq flat_map]. unfold items_on at 2. rewrite E.
        rewrite <- app_assoc. reflexivity. }
      split.
      { intros p Hp. destruct (Nat.eq_dec p page) as [-> | Hne].
        - unfold last_page. rewrite E. reflexivity.
        - apply Hmid. lia. }
      replace (page + (S n - 1)) with (S page + (n - 1)) by lia.
      exact Hlast.
  - destruct (paginate_unusable Number_toString fetchJSON username url Hurl
                page E) as (d & _ & Hd).
    rewrite Hd in H. injection H as <- <-.
    exists 1. cbn [Nat.sub seq flat_map repeat]. unfold items_on, last_page.
    rewrite Nat.add_0_r, E, app_nil_r.
    split; [ lia | ]. repeat split. intros p Hp. lia.
Qed.

(** The log of a loop that ends: the events of the pages that hold items,
    a delay after each of them, then the events of the last iteration,
    which has no delay. *)
Lemma paginate_trace (fuel : nat) :
  forall (page : nat) (acc all : list value) (tr : list event),
    loop fuel username page acc = Some (all, tr) ->
    exists pages final,
      Forall (fun items => items <> []) pages
      /\ (forall n items, nth_error pages n = Some items ->
                          page_items (response (page + n)) = Some items)
      /\ last_page (response (page + List.length pages)) = true
      /\ tr = pages_events url page pages ++ final
      /\ hd_error final
         = Some (ConsoleLog (FetchingPage (page + List.length pages)))
      /\ sleeps final = [].
Proof.
  induction fuel as [ | fuel IH]; intros page acc all tr H;
    [ discriminate | ].
  destruct (page_items (response page)) as [items | ] eqn:E.
  - rewrite (paginate_usable _ _ _ url Hurl _ _ _ _ E) in H.
    destruct items as [ | item items'].
    + cbn [List.length Nat.ltb Nat.leb] in H. injection H as <- <-.
      exists [], (page_events url page 0). cbn [List.length pages_events app].
      rewrite Nat.add_0_r. unfold last_page. rewrite E.
      split; [ constructor | ].
      split; [ intros [ | n] items H; discriminate H | ].
      repeat split.
    + cbn [List.length Nat.ltb Nat.leb] in H.
      destruct (loop fuel username (S page) (acc ++ item :: items'))
        as [[all' tr'] | ] eqn:El; [ | discriminate ].
      injection H as <- <-.
      destruct (IH _ _ _ _ El)
        as (pages & final & Hne & Hp & Hlast & -> & Hhd & Hs).
      exists ((item :: items') :: pages), final.
      cbn [List.length pages_events].
      rewrite Nat.add_succ_r.
      split; [ constructor; [ discriminate | exact Hne ] | ].
      split.
      { intros [ | n] items H; cbn [nth_error] in H.
        - injection H as <-. rewrite Nat.add_0_r. exact E.
        - rewrite Nat.add_succ_r. apply Hp, H. }
      split; [ exact Hlast | ].
      split; [ rewrite <- !app_assoc; reflexivity | ].
      split; [ exact Hhd | exact Hs ].
  - destruct (paginate_unusable Number_toString fetchJSON username url Hurl
                page E) as (d & Hk & Hd).
    rewrite Hd in H. injection H as <- <-.
    eexists [], _. cbn [List.length pages_events app].
    rewrite Nat.add_0_r. unfold last_page. rewrite E.
    split; [ constructor | ].
    split; [ intros [ | n] items H; discriminate H | ].
    split; [ reflexivity | ]. split; [ reflexivity | ].
    split; [ reflexivity | ].
    destruct d; try discriminate Hk; reflexivity.
Qed.

End WithUrl.

(** X10: a loop that ends has requested [n] consecutive pages from 1,
    each once and in ascending order, and returns the items of the pages
    before the first page that is empty or unusable, in page order: the
    first [n - 1] pages all hold items and page [n] is empty or unusable.
    When the URL of the statuses cannot be built, page 1 is unusable and
    nothing is requested. *)
Theorem loop_returns_pages_before_first_stop (fuel : nat)
    (all : list value) (tr : list event) :
  loop fuel username 1 [] = Some (all, tr) ->
  exists n,
    1 <= n <= fuel
    /\ fetches tr = match urlOf with
                    | Ok url => page_requests url 1 n
                    | Throw _ => []
                    end
    /\ all = flat_map (fun p => items_on (pageOf p)) (seq 1 (n - 1))
    /\ (forall p, 1 <= p < n -> last_page (pageOf p) = false)
    /\ last_page (pageOf n) = true.
Proof.
  intros H. unfold fetchPage.
  destruct urlOf as [url | err] eqn:Hurl; cbn [rbind].
  - destruct (paginate_shape url Hurl _ _ _ _ _ H)
      as (n & Hn & Hf & _ & Hall & Hmid & Hlast).
    exists n. split; [ exact Hn | ]. split; [ exact Hf | ].
    replace (1 + (n - 1)) with n in * by lia.
    split; [ | split; [ intros p Hp; apply Hmid; lia | exact Hlast ] ].
    rewrite Hall. cbn [app].
    replace n with ((n - 1) + 1) at 1 by lia.
    rewrite seq_app, flat_map_app. cbn [seq flat_map].
    replace (1 + (n - 1)) with n by lia.
    assert (Hl : items_on (fetchJSON url [("page", n)]) = []).
    { unfold last_page in Hlast. unfold items_on.
      destruct (page_items (fetchJSON url [("page", n)])) as [[ | ? ?] | ];
        [ reflexivity | discriminate | reflexivity ]. }
    rewrite Hl, !app_nil_r. reflexivity.
  - destruct fuel as [ | fuel]; [ discriminate | ].
    rewrite (paginate_no_url _ _ _ err _ _ _ Hurl) in H.
    injection H as <- <-. exists 1.
    split; [ lia | ]. split; [ reflexivity | ]. split; [ reflexivity | ].
    split; [ intros p Hp; lia | reflexivity ].
Qed.

(** X11: the log of a loop that ends is, for each page that holds items,
    the announcement, the request and the count of that page followed by
    a delay of one second, and then the events of the last iteration,
    which begin with the announcement of the next page and hold no delay:
    the loop waits once after every page that holds items, before it asks
    for the next, and never after the last page. *)
Theorem one_second_between_pages (fuel : nat) (all : list value)
    (tr : list event) :
  loop fuel username 1 [] = Some (all, tr) ->
  exists pages final,
    Forall (fun items => items <> []) pages
    /\ (forall n items, nth_error pages n = Some items ->
                        page_items (pageOf (S n)) = Some items)
    /\ last_page (pageOf (S (List.length pages))) = true
    /\ tr = match urlOf with
            | Ok url => pages_events url 1 pages
            | Throw _ => []
            end ++ final
    /\ hd_error final
       = Some (ConsoleLog (FetchingPage (S (List.length pages))))
    /\ sleeps final = []
    /\ sleeps tr = repeat 1000%Z (List.length pages).
Proof.
  intros H. unfold fetchPage.
  destruct urlOf as [url | err] eqn:Hurl; cbn [rbind].
  - destruct (paginate_trace url Hurl _ _ _ _ _ H)
      as (pages & final & Hne & Hp & Hlast & -> & Hhd & Hs).
    exists pages, final. split; [ exact Hne | ].
    split; [ exact Hp | ]. split; [ exact Hlast | ].
    split; [ reflexivity | ]. split; [ exact Hhd | ].
    split; [ exact Hs | ].
    rewrite sleeps_app, Hs, app_nil_r. apply sleeps_pages_events.
  - destruct fuel as [ | fuel]; [ discriminate | ].
    rewrite (paginate_no_url _ _ _ err _ _ _ Hurl) in H.
    injection H as <- <-. exists [].
    eexists. split; [ constructor | ].
    split; [ intros [ | n] items H; discriminate H | ].
    repeat split.
Qed.

End LoopProperties.

(** ** The shape of the export document *)

Lemma map_result_Forall2 {A B} (f : A -> result B) (xs : list A)
    (ys : list B) :
  map_result f xs = Ok ys -> Forall2 (fun x y => f x = Ok y) xs ys.
Proof.
  revert ys. induction xs as [ | x xs IH]; cbn; intros ys H.
  - inversion H. constructor.
  - destruct (f x) as [y | ] eqn:E; try discriminate.
    destruct (map_result f xs) as [ys' | ]; try discriminate.
    cbn in H. inversion H; subst. constructor; [ exact E | ].
    apply IH. reflexivity.
Qed.

Lemma transformStatus_copies (status entry : value) :
  transformStatus status = Ok entry ->
  get2 entry "status" "id" = get status "id"
  /\ get2 entry "status" "createdAt" = get status "createdAt"
  /\ get2 entry "status" "train" = get status "train"
  /\ get2 entry "trip" "id" = get2 status "train" "trip".
Proof.
  intros H. unfold transformStatus, stop, or_default, object, rmap in H.
  cbn [properties] in H. split_result H. inversion H; subst; clear H.
  repeat split; reflexivity.
Qed.

(** X12: a produced document holds one entry per status, in the order of
    the statuses; each entry is the transform of its status and carries
    the status's [id], [createdAt] and [train] unchanged and the train's
    [trip] as the trip's [id]. *)
Theorem one_entry_per_status (userProfile : value)
    (allStatuses : list value) (earliest latest : Date) (now : Z)
    (doc : value) :
  exportData userProfile allStatuses earliest latest now = Ok doc ->
  exists entries,
    get doc "data" = Ok (VArr entries)
    /\ List.length entries = List.length allStatuses
    /\ Forall2 (fun status entry =>
                  transformStatus status = Ok entry
                  /\ get2 entry "status" "id" = get status "id"
                  /\ get2 entry "status" "createdAt" = get status "createdAt"
                  /\ get2 entry "status" "train" = get status "train"
                  /\ get2 entry "trip" "id" = get2 status "train" "trip")
               allStatuses entries.
Proof.
  intros H. apply exportData_shape in H.
  destruct H as (user & isoFrom & isoTo & entries & _ & _ & _ & He & ->).
  exists entries. split; [ reflexivity | ].
  split; [ eapply map_result_length, He | ].
  apply map_result_Forall2 in He.
  eapply Forall2_impl; [ | exact He ]. cbn. intros s e Hs.
  split; [ exact Hs | ]. apply transformStatus_copies, Hs.
Qed.

(** X13: the defaulting goes by truthiness, not by absence or type: a
    [body], [bodyMentions], [tags] or [stopovers] that is [null], [false],
    [0], NaN or the empty string is replaced like a missing one, and any
    other value is exported as it is, whatever its type. *)
Theorem defaults_go_by_truthiness (status entry : value) :
  transformStatus status = Ok entry ->
  get2 entry "status" "body"
  = Ok (if truthy (prop status "body") then prop status "body"
        else VStr "")
  /\ get2 entry "status" "bodyMentions"
     = Ok (if truthy (prop status "bodyMentions")
           then prop status "bodyMentions" else VArr [])
  /\ get2 entry "status" "tags"
     = Ok (if truthy (prop status "tags") then prop status "tags"
           else VArr [])
  /\ get2 entry "trip" "stopovers"
     = Ok (if truthy (prop (prop status "train") "stopovers")
           then prop (prop status "train") "stopovers" else VArr []).
Proof.
  intros H.
  assert (Hc : train_complete status = true)
    by (apply transformStatus_ok_iff; eauto).
  apply train_complete_spec in Hc. destruct Hc as (Hs & Ht & Ho & Hd).
  unfold transformStatus, stop, or_default in H.
  rewrite !get3_prop, !get2_prop, !get_prop in H by assumption.
  cbn in H. injection H as <-. repeat split.
Qed.

Lemma transformStatus_keys (status entry : value) :
  transformStatus status = Ok entry ->
  keys entry = ["status"; "trip"]
  /\ exists st trip origin destination,
       get entry "status" = Ok st /\ get entry "trip" = Ok trip
       /\ get trip "origin" = Ok origin
       /\ get trip "destination" = Ok destination
       /\ keys st
          = [ "id"; "body"; "bodyMentions"; "user"; "username";
              "profilePicture"; "preventIndex"; "business"; "visibility";
              "likes"; "liked"; "isLikable"; "client"; "createdAt"; "train";
              "event"; "userDetails"; "tags" ]
       /\ keys trip
          = [ "id"; "category"; "number"; "lineName"; "journeyNumber";
              "origin"; "destination"; "stopovers" ]
       /\ keys origin
          = [ "id"; "name"; "latitude"; "longitude"; "ibnr";
              "rilIdentifier" ]
       /\ keys destination
          = [ "id"; "name"; "latitude"; "longitude"; "ibnr";
              "rilIdentifier" ].
Proof.
  intros H. unfold transformStatus, stop, or_default, object, rmap in H.
  cbn [properties] in H. split_result H. inversion H; subst; clear H.
  split; [ reflexivity | ]. do 4 eexists. repeat split.
Qed.

Lemma present_prop (o : value) (k : string) :
  present o k = defined (prop o k).
Proof.
  destruct o; cbn; try reflexivity.
  destruct (assoc k fields) as [[ | | | | | | ] | ]; reflexivity.
Qed.

Lemma written_keys_cons (k : string) (x : value)
    (rest : list (string * value)) :
  written_keys (VObj ((k, x) :: rest))
  = (if defined x then [k] else []) ++ written_keys (VObj rest).
Proof. cbn. destruct (defined x); reflexivity. Qed.

Lemma filter_cons_app {A} (f : A -> bool) (a : A) (l : list A) :
  filter f (a :: l) = (if f a then [a] else []) ++ filter f l.
Proof. cbn. destruct (f a); reflexivity. Qed.

Lemma defined_js_or (v d : value) :
  defined d = true -> defined (js_or v d) = true.
Proof.
  unfold js_or. intros Hd. destruct (truthy v) eqn:E; [ | exact Hd ].
  destruct v; try reflexivity; discriminate E.
Qed.

(** [JSON.stringify] writes an object like the object without its
    properties whose value is [undefined]: [written_keys] are the keys in
    the text. *)
Lemma serialize_written (Number_toString : float -> string)
    (indent : string) (fields : list (string * value)) :
  serialize Number_toString indent (VObj fields)
  = serialize Number_toString indent
      (VObj (filter (fun kv => defined (snd kv)) fields)).
Proof.
  cbn [serialize].
  match goal with
  | |- match ?parts with [] => _ | _ :: _ => _ end
       = match ?parts' with [] => _ | _ :: _ => _ end =>
      assert (H : parts = parts'); [ | rewrite H; reflexivity ]
  end.
  induction fields as [ | [k x] fields IH]; [ reflexivity | ].
  cbn [filter snd]. destruct x; cbn [defined serialize];
    rewrite IH; reflexivity.
Qed.

Ltac written :=
  rewrite ?written_keys_cons, ?filter_cons_app, ?present_prop;
  rewrite ?defined_js_or by reflexivity;
  cbn [written_keys filter map defined app];
  rewrite <- ?app_assoc; cbn [app]; try reflexivity.

Lemma transformStatus_written (status entry : value) :
  transformStatus status = Ok entry ->
  written_keys entry = ["status"; "trip"]
  /\ exists st trip origin destination,
       get entry "status" = Ok st /\ get entry "trip" = Ok trip
       /\ get trip "origin" = Ok origin
       /\ get trip "destination" = Ok destination
       /\ written_keys st
          = filter (present status) ["id"]
              ++ ["body"; "bodyMentions"]
              ++ filter (present status)
                   [ "user"; "username"; "profilePicture"; "preventIndex";
                     "business"; "visibility"; "likes"; "liked"; "isLikable";
                     "client"; "createdAt"; "train"; "event"; "userDetails" ]
              ++ ["tags"]
       /\ written_keys trip
          = (if present (prop status "train") "trip" then ["id"] else [])
              ++ filter (present (prop status "train"))
                   ["category"; "number"; "lineName"; "journeyNumber"]
              ++ ["origin"; "destination"; "stopovers"]
       /\ written_keys origin
          = filter (present (prop (prop status "train") "origin"))
              stationKeys
       /\ written_keys destination
          = filter (present (prop (prop status "train") "destination"))
              stationKeys
       /\ get st "user" = get status "user"
       /\ get st "train" = get status "train"
       /\ get st "event" = get status "event"
       /\ get st "userDetails" = get status "userDetails".
Proof.
  intros H.
  assert (Hc : train_complete status = true)
    by (apply transformStatus_ok_iff; eauto).
  apply train_complete_spec in Hc. destruct Hc as (Hs & Ht & Ho & Hd).
  unfold transformStatus, stop, or_default in H.
  rewrite !get3_prop, !get2_prop, !get_prop in H by assumption.
  cbn in H. injection H as <-.
  split; [ reflexivity | ]. do 4 eexists.
  do 4 (split; [ reflexivity | ]).
  unfold stationKeys.
  split; [ written | ]. split; [ written | ].
  split; [ written | ]. split; [ written | ].
  rewrite !(get_prop status) by exact Hs. repeat split.
Qed.

Lemma exportUser_written (userProfile user : value) :
  exportUser userProfile = Ok user ->
  written_keys user
  = filter (present (prop userProfile "data"))
      ["id"; "displayName"; "username"; "profilePicture"]
      ++ (if present (prop userProfile "data") "trainDistance"
          then ["trainDistance"; "totalDistance"] else [])
      ++ (if present (prop userProfile "data") "trainDuration"
          then ["trainDuration"; "totalDuration"] else [])
      ++ filter (present (prop userProfile "data"))
           [ "points"; "mastodonUrl"; "privateProfile"; "preventIndex";
             "likes_enabled" ]
      ++ [ "pointsEnabled"; "userInvisibleToMe"; "muted"; "following";
           "followPending"; "followedBy" ].
Proof.
  intros H. unfold exportUser, object, rmap in H. cbn [properties] in H.
  split_result H. injection H as <-.
  repeat match goal with
         | E : get2 _ _ _ = Ok _ |- _ =>
             apply get2_ok_inv in E; destruct E as (_ & _ & ->)
         end.
  written.
  destruct (defined (prop (prop userProfile "data") "trainDistance"));
    destruct (defined (prop (prop userProfile "data") "trainDuration"));
    reflexivity.
Qed.

(** X14: the object [exportData] builds has the fixed layout: [meta] and
    [data] at the top, [user], [from], [to], [exportedAt] in [meta], the
    nineteen keys of [meta.user], and in the entry of every status the
    eighteen keys of [status], the eight of [trip] and the six of [origin]
    and of [destination], in this order.  Of these the file holds the
    ones whose value is not [undefined]: always the literals and the
    defaulted fields, and a copied field when the source has it with a
    defined value.  No key is added to these objects; the values of
    [user], [train], [event] and [userDetails] are the source's, whole,
    with whatever fields they carry. *)
Theorem export_has_fixed_schema (userProfile : value)
    (allStatuses : list value) (earliest latest : Date) (now : Z)
    (doc : value) :
  exportData userProfile allStatuses earliest latest now = Ok doc ->
  keys doc = ["meta"; "data"]
  /\ written_keys doc = ["meta"; "data"]
  /\ exists meta user entries,
       get doc "meta" = Ok meta /\ get meta "user" = Ok user
       /\ get doc "data" = Ok (VArr entries)
       /\ keys meta = ["user"; "from"; "to"; "exportedAt"]
       /\ written_keys meta = ["user"; "from"; "to"; "exportedAt"]
       /\ keys user
          = [ "id"; "displayName"; "username"; "profilePicture";
              "trainDistance"; "totalDistance"; "trainDuration";
              "totalDuration"; "points"; "mastodonUrl"; "privateProfile";
              "preventIndex"; "likes_enabled"; "pointsEnabled";
              "userInvisibleToMe"; "muted"; "following"; "followPending";
              "followedBy" ]
       /\ written_keys user
          = filter (present (prop userProfile "data"))
              ["id"; "displayName"; "username"; "profilePicture"]
              ++ (if present (prop userProfile "data") "trainDistance"
                  then ["trainDistance"; "totalDistance"] else [])
              ++ (if present (prop userProfile "data") "trainDuration"
                  then ["trainDuration"; "totalDuration"] else [])
              ++ filter (present (prop userProfile "data"))
                   [ "points"; "mastodonUrl"; "privateProfile";
                     "preventIndex"; "likes_enabled" ]
              ++ [ "pointsEnabled"; "userInvisibleToMe"; "muted";
                   "following"; "followPending"; "followedBy" ]
       /\ Forall2
            (fun status entry =>
               keys entry = ["status"; "trip"]
               /\ written_keys entry = ["status"; "trip"]
               /\ exists st trip origin destination,
                    get entry "status" = Ok st /\ get entry "trip" = Ok trip
                    /\ get trip "origin" = Ok origin
                    /\ get trip "destination" = Ok destination
                    /\ keys st
                       = [ "id"; "body"; "bodyMentions"; "user"; "username";
                           "profilePicture"; "preventIndex"; "business";
                           "visibility"; "likes"; "liked"; "isLikable";
                           "client"; "createdAt"; "train"; "event";
                           "userDetails"; "tags" ]
                    /\ keys trip
                       = [ "id"; "category"; "number"; "lineName";
                           "journeyNumber"; "origin"; "destination";
                           "stopovers" ]
                    /\ keys origin = stationKeys
                    /\ keys destination = stationKeys
                    /\ written_keys st
                       = filter (present status) ["id"]
                           ++ ["body"; "bodyMentions"]
                           ++ filter (present status)
                                [ "user"; "username"; "profilePicture";
                                  "preventIndex"; "business"; "visibility";
                                  "likes"; "liked"; "isLikable"; "client";
                                  "createdAt"; "train"; "event";
                                  "userDetails" ]
                           ++ ["tags"]
                    /\ written_keys trip
                       = (if present (prop status "train") "trip"
                          then ["id"] else [])
                           ++ filter (present (prop status "train"))
                                [ "category"; "number"; "lineName";
                                  "journeyNumber" ]
                           ++ ["origin"; "destination"; "stopovers"]
                    /\ written_keys origin
                       = filter
                           (present (prop (prop status "train") "origin"))
                           stationKeys
                    /\ written_keys destination
                       = filter
                           (present
                              (prop (prop status "train") "destination"))
                           stationKeys
                    /\ get st "user" = get status "user"
                    /\ get st "train" = get status "train"
                    /\ get st "event" = get status "event"
                    /\ get st "userDetails" = get status "userDetails")
            allStatuses entries.
Proof.
  intros H. apply exportData_shape in H.
  destruct H as (user & isoFrom & isoTo & entries & Hu & _ & _ & He & ->).
  pose proof (exportUser_written _ _ Hu) as Hwu.
  apply exportUser_shape in Hu.
  destruct Hu as (? & ? & ? & ? & ? & ? & ? & ? & ? & ? & ? & -> & _ & _).
  split; [ reflexivity | ]. split; [ reflexivity | ]. do 3 eexists.
  do 6 (split; [ reflexivity | ]).
  split; [ exact Hwu | ].
  apply map_result_Forall2 in He.
  eapply Forall2_impl; [ | exact He ]. cbn beta. intros s e Hs.
  destruct (transformStatus_keys _ _ Hs)
    as (Hk & st & trip & origin & destination & Hst & Htrip & Ho & Hd
        & Hkst & Hktrip & Hko & Hkd).
  destruct (transformStatus_written _ _ Hs)
    as (Hw & st' & trip' & origin' & destination' & Hst' & Htrip' & Ho' & Hd'
        & Hwst & Hwtrip & Hwo & Hwd & Hcopied).
  assert (st' = st) by congruence. subst st'.
  assert (trip' = trip) by congruence. subst trip'.
  assert (origin' = origin) by congruence. subst origin'.
  assert (destination' = destination) by congruence. subst destination'.
  split; [ exact Hk | ]. split; [ exact Hw | ].
  exists st, trip, origin, destination.
  repeat (split; [ assumption | ]). exact Hcopied.
Qed.

(** ** Whole runs *)

Lemma Math_min_invalid (ds : list Date) : In None ds -> Math_min ds = None.
Proof.
  induction ds as [ | d ds IH]; [ intros [] | ].
  intros Hin. destruct ds as [ | d' ds'].
  - destruct Hin as [-> | []]. reflexivity.
  - change (Math_min (d :: d' :: ds'))
      with (match d, Math_min (d' :: ds') with
            | Some a, Some b => Some (Z.min a b)
            | _, _ => None
            end).
    destruct Hin as [-> | Hin]; [ reflexivity | ].
    rewrite (IH Hin). destruct d; reflexivity.
Qed.

(** The only error of a conversion to text is the [TypeError] of an
    object that cannot be turned into a primitive value. *)
Lemma ToString_throws (Number_toString : float -> string) :
  forall (v : value) (e : exn),
    ToString Number_toString v = Throw e -> e = ConversionError.
Proof.
  fix IH 1. intros v e. destruct v; cbn [ToString]; try discriminate.
  - unfold rmap.
    match goal with
    | |- rbind (?each items) _ = _ -> _ =>
        assert (Heach : forall l e', each l = Throw e' ->
                                     e' = ConversionError)
    end.
    { induction l as [ | x l IHl]; intros e' H; [ discriminate H | ].
      destruct (nullish x).
      - unfold rmap in H.
        match type of H with
        | rbind ?r _ = _ => destruct r eqn:El
        end; [ discriminate H | ].
        cbn [rbind] in H. injection H as <-. apply IHl. reflexivity.
      - destruct (ToString Number_toString x) eqn:Ex.
        + unfold rmap in H.
          match type of H with
          | rbind ?r _ = _ => destruct r eqn:El
          end; [ discriminate H | ].
          cbn [rbind] in H. injection H as <-. apply IHl. reflexivity.
        + injection H as <-. apply (IH x). exact Ex. }
    match goal with
    | |- rbind ?r _ = _ -> _ => destruct r eqn:El
    end; cbn [rbind]; [ discriminate | ].
    intros H. injection H as <-. eapply Heach, El.
  - destruct (assoc "toString" fields); intros H; inversion H. reflexivity.
Qed.

Lemma new_Date_throws (Number_toString : float -> string)
    (Date_parse : string -> option Z) (v : value) (e : exn) :
  new_Date Number_toString Date_parse v = Throw e -> e = ConversionError.
Proof.
  destruct v; cbn [new_Date]; try discriminate; unfold rmap;
    (destruct (ToString Number_toString _) eqn:Et; cbn [rbind];
     [ discriminate | ]);
    intros H; injection H as <-; eapply ToString_throws, Et.
Qed.

Section RunOutcomes.

Local Open Scope nat_scope.

Variable Number_toString : float -> string.
Variable Date_parse : string -> option Z.
Variable argumentLimit : nat.
Variable fetchJSON : string -> list (string * nat) -> result value.
Variable now : Z.

Local Abbreviation urlOf username := (statusesUrl Number_toString username).
Local Abbreviation pageOf username page :=
  (fetchPage Number_toString fetchJSON username page).
Local Abbreviation loop := (paginate Number_toString fetchJSON).
Local Abbreviation identify_ := (identify Number_toString fetchJSON).
Local Abbreviation export_ :=
  (export Number_toString Date_parse argumentLimit now).
Local Abbreviation run_ :=
  (run Number_toString Date_parse argumentLimit fetchJSON now).
Local Abbreviation statusDate_ := (statusDate Number_toString Date_parse).
Local Abbreviation statusDates_ := (statusDates Number_toString Date_parse).
Local Abbreviation fileOf name := (name +++ "_statuses.json").

(** X15: a run that gets through identification and pagination ends in
    one of three ways and no other: with no status, it writes nothing
    and reports no error; or it writes exactly one file,
    [<username>_statuses.json], and reports no error; or its outer
    [catch] reports exactly one error and no file is written.  A file and
    a reported error never go together. *)
Theorem run_writes_one_file_or_none (fuel : nat) (tr0 tr1 : list event)
    (userProfile username : value) (allStatuses : list value) :
  identify_ = (tr0, Ok (userProfile, username)) ->
  loop fuel username 1%nat [] = Some (allStatuses, tr1) ->
  exists tr name,
    run_ fuel = Some tr
    /\ ToString Number_toString username = Ok name
    /\ ((allStatuses = [] /\ writes tr = [] /\ caught tr = [])
        \/ (allStatuses <> [] /\ caught tr = []
            /\ exists text, writes tr = [(fileOf name, text)])
        \/ (allStatuses <> [] /\ writes tr = []
            /\ exists e, caught tr = [e])).
Proof.
  intros Hid Hl.
  pose proof (run_after_loop Number_toString Date_parse argumentLimit
                fetchJSON now _ _ _ _ _ _ Hid Hl) as Hrun.
  destruct (identify_ok _ _ _ _ _ Hid) as (_ & _ & Htr0).
  destruct (identify_names _ _ _ _ _ Hid) as (name & Hname & _).
  assert (Hw0 : writes tr0 = []) by (rewrite Htr0; reflexivity).
  assert (Hc0 : caught tr0 = []) by (rewrite Htr0; reflexivity).
  destruct (loop_events_quiet tr1
              (paginate_events _ _ _ _ _ _ _ _ Hl)) as (Hw & Hc & _).
  eexists. exists name. split; [ exact Hrun | ]. split; [ exact Hname | ].
  destruct (export_outcome Number_toString Date_parse argumentLimit now
              userProfile username allStatuses)
    as [[Hnil He] | [(Hne & pre & e & He & Hwp & Hcp & _)
                    | (Hne & dates & earliest & latest & isoE & isoL & doc
                       & name' & text & _ & _ & _ & _ & _ & _ & Hname'
                       & _ & He)]];
    rewrite He; cbn [fst snd catch_all].
  - left. rewrite !writes_app, !caught_app, Hw, Hc, Hw0, Hc0. auto.
  - right. right. split; [ exact Hne | ].
    rewrite !writes_app, !caught_app, Hw, Hc, Hw0, Hc0, Hwp, Hcp.
    split; [ reflexivity | ]. exists e. reflexivity.
  - right. left. split; [ exact Hne | ].
    assert (name' = name) by congruence. subst name'.
    rewrite !writes_app, !caught_app, Hw, Hc, Hw0, Hc0.
    split; [ reflexivity | ]. exists text. reflexivity.
Qed.

(** X16: when the profile request fails, or the profile comes without
    [data], the run ends at once: the profile request is the only request,
    one error is reported and no file is written, however much fuel the
    loop would have had. *)
Theorem profile_failure_ends_run :
  profile_data (fetchJSON profileUrl []) = None ->
  exists tr e,
    (forall fuel, run_ fuel = Some tr)
    /\ fetches tr = [(profileUrl, [])]
    /\ writes tr = [] /\ caught tr = [e] /\ sleeps tr = [].
Proof.
  unfold profile_data, run, identify. cbn [bind emit lift ret].
  destruct (fetchJSON profileUrl []) as [up | e] eqn:Ef.
  - destruct (get up "data") as [data | e'] eqn:Eg.
    + destruct (nullish data) eqn:En; [ | discriminate ]. intros _.
      unfold get2. rewrite Eg. cbn [rbind]. rewrite (get_throws _ _ En).
      do 2 eexists. split; [ intros fuel; reflexivity | ].
      repeat split.
    + intros _. unfold get2. rewrite Eg. cbn [rbind].
      do 2 eexists. split; [ intros fuel; reflexivity | ].
      repeat split.
  - intros _. do 2 eexists. split; [ intros fuel; reflexivity | ].
    repeat split.
Qed.


(** X18: one status whose [createdAt] is missing or is no valid date
    stops the whole export with a [RangeError], and no file is written --
    the other statuses are lost with it.  Within the engine's argument
    limit the earliest date is invalid and its [toISOString] throws right
    after the heading of the date range; beyond the limit the spread call
    throws before the heading. *)
Theorem invalid_date_stops_export (fuel : nat) (tr0 tr1 : list event)
    (userProfile username : value) (allStatuses : list value)
    (dates : list Date) :
  identify_ = (tr0, Ok (userProfile, username)) ->
  loop fuel username 1%nat [] = Some (allStatuses, tr1) ->
  statusDates_ allStatuses = Ok dates ->
  In None dates ->
  run_ fuel
  = Some (tr0 ++ tr1
            ++ [ ConsoleLog (Found (List.length allStatuses));
                 ConsoleLog (SampleStatus (hd VUndefined allStatuses)) ]
            ++ (if (List.length allStatuses <=? argumentLimit)%nat
                then [ConsoleLog DateRangeHeader] else [])
            ++ [ConsoleError (Error RangeError)])
  /\ forall tr, run_ fuel = Some tr -> writes tr = [].
Proof.
  intros Hid Hl Hd Hin.
  assert (Hne : allStatuses <> []).
  { intros ->. cbn in Hd. injection Hd as <-. destruct Hin. }
  assert (Hrun : run_ fuel
                 = Some (tr0 ++ tr1
                           ++ [ ConsoleLog (Found (List.length allStatuses));
                                ConsoleLog
                                  (SampleStatus (hd VUndefined allStatuses)) ]
                           ++ (if (List.length allStatuses
                                   <=? argumentLimit)%nat
                               then [ConsoleLog DateRangeHeader] else [])
                           ++ [ConsoleError (Error RangeError)])).
  { unfold run. rewrite Hid, Hl.
    pose proof (map_result_length _ _ _ Hd) as Hlen.
    rewrite (export_nonempty Number_toString Date_parse argumentLimit now
               _ _ _ Hne).
    unfold exportStatuses. cbn [bind lift emit ret]. rewrite Hd.
    unfold earliestOf, latestOf, rmap, spread. rewrite Hlen.
    destruct (List.length allStatuses <=? argumentLimit)%nat.
    - cbn [rbind]. rewrite (Math_min_invalid dates Hin).
      cbn. rewrite <- !app_assoc. reflexivity.
    - cbn. rewrite <- !app_assoc. reflexivity. }
  split; [ exact Hrun | ].
  intros tr Htr. rewrite Hrun in Htr. injection Htr as <-.
  destruct (identify_ok _ _ _ _ _ Hid) as (_ & _ & ->).
  destruct (loop_events_quiet tr1
              (paginate_events _ _ _ _ _ _ _ _ Hl)) as (Hw & _ & _).
  rewrite !writes_app, Hw.
  destruct (List.length allStatuses <=? argumentLimit)%nat; reflexivity.
Qed.

(** X23: a profile whose [id] or [username] cannot be turned into text
    -- an object with a [toString] property of its own -- ends the run at
    the line that prints them: the [TypeError] of the template literal goes
    to the outer [catch], and no page is ever requested. *)
Theorem unprintable_identity_ends_run (data : value) :
  profile_data (fetchJSON profileUrl []) = Some data ->
  (exists e, ToString Number_toString (prop data "id") = Throw e)
  \/ (exists e, ToString Number_toString (prop data "username") = Throw e) ->
  exists userProfile,
    fetchJSON profileUrl [] = Ok userProfile
    /\ forall fuel,
         run_ fuel
         = Some [ ConsoleLog FetchingProfile;
                  Fetch profileUrl [];
                  ConsoleLog (UserProfile userProfile);
                  ConsoleError (Error ConversionError) ].
Proof.
  unfold profile_data.
  destruct (fetchJSON profileUrl []) as [up | ] eqn:Ef; [ | discriminate ].
  destruct (get up "data") as [d | ] eqn:Eg; [ | discriminate ].
  destruct (nullish d) eqn:En; [ discriminate | ].
  intros H Hthrow. injection H as ->.
  exists up. split; [ reflexivity | ]. intros fuel.
  unfold run, identify. cbn [bind emit lift ret]. rewrite Ef.
  unfold get2. rewrite Eg. cbn [rbind].
  rewrite !(get_prop data) by exact En.
  destruct (ToString Number_toString (prop data "id")) as [t | e] eqn:Ei.
  - destruct Hthrow as [[e He] | [e He]]; [ discriminate He | ].
    rewrite He. rewrite (ToString_throws _ _ _ He). reflexivity.
  - rewrite (ToString_throws _ _ _ Ei). reflexivity.
Qed.

(** X19: against a server whose every page holds some items the run
    never ends: the loop has no page limit, and no amount of iterations
    brings it to a result. *)
Theorem run_never_ends_without_empty_page (tr0 : list event)
    (userProfile username : value) :
  identify_ = (tr0, Ok (userProfile, username)) ->
  (forall page, last_page (pageOf username page) = false) ->
  forall fuel, run_ fuel = None.
Proof.
  intros Hid Hall fuel. unfold run. rewrite Hid.
  destruct (identify_names _ _ _ _ _ Hid) as (name & _ & Hurl).
  rewrite (paginate_runs_on _ _ _ _ Hurl); [ reflexivity | ].
  intros page. specialize (Hall page). unfold last_page in Hall.
  rewrite (fetchPage_at _ _ _ _ _ Hurl) in Hall.
  match type of Hall with
  | context [page_items ?r] =>
      destruct (page_items r) as [[ | item items] | ]
  end; try discriminate. eauto.
Qed.

End RunOutcomes.

Section MoreRunOutcomes.

Variable Number_toString : float -> string.
Variable Date_parse : string -> option Z.
Variable argumentLimit : nat.
Variable fetchJSON : string -> list (string * nat) -> result value.
Variable now : Z.

Local Abbreviation loop := (paginate Number_toString fetchJSON).
Local Abbreviation identify_ := (identify Number_toString fetchJSON).
Local Abbreviation run_ :=
  (run Number_toString Date_parse argumentLimit fetchJSON now).
Local Abbreviation statusDate_ := (statusDate Number_toString Date_parse).
Local Abbreviation statusDates_ := (statusDates Number_toString Date_parse).

(** The dates of a list with a [null] in it are never all computed: the
    map throws at the [null], or earlier at a [createdAt] that cannot be
    turned into a primitive value. *)
Lemma statusDates_unreadable (allStatuses : list value) :
  Exists (fun s => nullish s = true) allStatuses ->
  exists e,
    statusDates_ allStatuses = Throw e
    /\ (e = TypeError "createdAt" \/ e = ConversionError)
    /\ (Forall (fun s => statusDate_ s <> Throw ConversionError)
          allStatuses ->
        e = TypeError "createdAt").
Proof.
  assert (Hthrow : forall s e,
             statusDate_ s = Throw e ->
             e = TypeError "createdAt" \/ e = ConversionError).
  { intros s e. unfold statusDate.
    destruct (get s "createdAt") as [c | e'] eqn:E; cbn [rbind].
    - intros H. right. eapply new_Date_throws, H.
    - intros H. injection H as <-. left.
      destruct s; cbn in E; try discriminate; try congruence.
      destruct (assoc "createdAt" fields); discriminate. }
  unfold statusDates. induction 1 as [s ss Hs | s ss _ IH]; cbn.
  - unfold statusDate. rewrite (get_throws _ _ Hs). cbn [rbind].
    eexists. split; [ reflexivity | ]. split; [ left; reflexivity | ].
    reflexivity.
  - destruct (statusDate_ s) as [d | e] eqn:E; cbn.
    + destruct IH as (e & -> & Hor & Hcl). cbn.
      exists e. split; [ reflexivity | ]. split; [ exact Hor | ].
      intros Hall. apply Hcl. inversion Hall; assumption.
    + exists e. split; [ reflexivity | ].
      destruct (Hthrow s e E) as [-> | ->].
      * split; [ left; reflexivity | reflexivity ].
      * split; [ right; reflexivity | ].
        intros Hall. inversion Hall; subst. contradiction.
Qed.

(** X20: a [null] among the accumulated items stops the whole export
    before any date range is computed: the map over the statuses throws,
    the outer [catch] reports the error and no file is written.  The error
    is the [TypeError] of the read of [createdAt] on the [null], unless an
    earlier status has a [createdAt] that cannot be turned into a
    primitive value, which throws first. *)
Theorem null_status_stops_export (fuel : nat) (tr0 tr1 : list event)
    (userProfile username : value) (allStatuses : list value) :
  identify_ = (tr0, Ok (userProfile, username)) ->
  loop fuel username 1%nat [] = Some (allStatuses, tr1) ->
  Exists (fun s => nullish s = true) allStatuses ->
  exists e,
    run_ fuel
    = Some (tr0 ++ tr1
              ++ [ ConsoleLog (Found (List.length allStatuses));
                   ConsoleLog (SampleStatus (hd VUndefined allStatuses));
                   ConsoleError (Error e) ])
    /\ (e = TypeError "createdAt" \/ e = ConversionError)
    /\ (Forall (fun s => statusDate_ s <> Throw ConversionError)
          allStatuses ->
        e = TypeError "createdAt")
    /\ forall tr, run_ fuel = Some tr -> writes tr = [].
Proof.
  intros Hid Hl Hex.
  destruct (statusDates_unreadable allStatuses Hex) as (e & Hd & Hor & Hcl).
  assert (Hrun : run_ fuel
                 = Some (tr0 ++ tr1
                           ++ [ ConsoleLog (Found (List.length allStatuses));
                                ConsoleLog
                                  (SampleStatus (hd VUndefined allStatuses));
                                ConsoleError (Error e) ])).
  { unfold run. rewrite Hid, Hl.
    destruct allStatuses as [ | s ss]; [ inversion Hex | ].
    unfold export. cbn [List.length Nat.ltb Nat.leb].
    unfold exportStatuses. cbn [bind lift emit ret]. rewrite Hd.
    cbn. rewrite <- !app_assoc. reflexivity. }
  exists e. split; [ exact Hrun | ]. split; [ exact Hor | ].
  split; [ exact Hcl | ].
  intros tr Htr. rewrite Hrun in Htr. injection Htr as <-.
  destruct (identify_ok _ _ _ _ _ Hid) as (_ & _ & ->).
  destruct (loop_events_quiet tr1
              (paginate_events _ _ _ _ _ _ _ _ Hl)) as (Hw & _ & _).
  rewrite !writes_app, Hw. reflexivity.
Qed.

Variable JSON_parse : string -> result value.
Variable Buffer_toString : string -> string.
Variable API_TOKEN : string.

Local Abbreviation fetch :=
  (fetchJSON_on Number_toString JSON_parse Buffer_toString API_TOKEN).



(** X22: a page answered with a status other than 200 -- a rate limit,
    a server error -- is not retried: [fetchJSON] rejects, the loop logs
    "HTTP <status> when fetching <url>" for that page and ends with the
    statuses it has, even when the body of the answer is valid JSON. *)
Theorem non_200_page_ends_loop (username : value) (url : string)
    (page : nat) (statusCode : N) (headers : value)
    (body : list body_event) :
  statusesUrl Number_toString username = Ok url ->
  statusCode <> 200%N ->
  awaited
    (snd (fetch url [("page", page)] (Response statusCode headers body)))
  = Some (fetchJSON url [("page", page)]) ->
  forall (fuel : nat) (acc : list value),
    loop (S fuel) username page acc
    = Some (acc,
            [ ConsoleLog (FetchingPage page);
              Fetch url [("page", page)];
              ConsoleError
                (ErrorFetchingPage page
                   (Rejected
                      ("HTTP " +++ digits (Z.of_N statusCode)
                         +++ " when fetching " +++ url
                         +++ "?page=" +++ digits (Z.of_nat page)))) ]).
Proof.
  intros Hurl Hcode Haw fuel acc.
  cbn [fetchJSON_on snd] in Haw. unfold on_response in Haw.
  apply N.eqb_neq in Hcode. rewrite Hcode in Haw. cbn [settle] in Haw.
  rewrite settled_for_good in Haw by discriminate.
  cbn [awaited] in Haw. injection Haw as Haw.
  cbn [paginate]. rewrite Hurl, <- Haw. cbn [rbind]. reflexivity.
Qed.

End MoreRunOutcomes.

(** * The further properties on the sample data *)

Section MoreSamples.

Local Open Scope nat_scope.

Local Abbreviation NT := Sample.Number_toString.
Local Abbreviation DP := Sample.Date_parse.
Local Abbreviation LIMIT := Sample.argumentLimit.
Local Abbreviation alice := (VStr "alice").
Local Abbreviation fetch :=
  (fetchJSON_on NT SampleNet.JSON_parse SampleNet.Buffer_toString
     SampleNet.token).

Local Abbreviation server :=
  (Sample.serve (Ok Sample.userProfile) [Sample.paged Sample.page1]).

Local Abbreviation flaky :=
  (Sample.serve (Ok Sample.userProfile)
     [Sample.paged Sample.page1; Throw (Rejected "HTTP 500")]).

(** Every page holds the same two statuses. *)
Local Abbreviation endless :=
  (fun (url : string) (params : list (string * nat)) =>
     if String.eqb url profileUrl then Ok Sample.userProfile
     else Sample.paged Sample.page1).

(** A status with a train, no [createdAt], a [null] body and a text for
    its tags. *)
Local Abbreviation sparse :=
  (VObj [ ("id", VNum 12);
          ("body", VNull);
          ("tags", VStr "night train");
          ("train",
           VObj [ ("trip", VNum 8);
                  ("origin", Sample.station 1 "Berlin Hbf");
                  ("destination", Sample.station 2 "Hamburg Hbf") ]) ]).

Lemma non_200_rejects_witness :
  snd (fetch SampleNet.statusUrl [("page", 3)]
         (Response 429 (VObj []) [OnData "{}"; OnEnd]))
  = Failed
      (Rejected
         "HTTP 429 when fetching https://traewelling.de/api/v1/user/alice/statuses?page=3").
Proof.
  rewrite (non_200_rejects NT SampleNet.JSON_parse SampleNet.Buffer_toString
             SampleNet.token SampleNet.statusUrl [("page", 3)] 429
             (VObj []) [OnData "{}"; OnEnd]) by discriminate.
  reflexivity.
Defined.

Lemma first_settlement_wins_witness :
  snd (fetch SampleNet.statusUrl [("page", 1)]
         (Response 200 (VObj [])
            ([OnData "{"; OnData "}"]
               ++ OnEnd :: [OnData "]"; OnError (Rejected "reset"); OnEnd])))
  = Fulfilled (VObj []).
Proof.
  rewrite (first_settlement_wins NT SampleNet.JSON_parse
             SampleNet.Buffer_toString SampleNet.token SampleNet.statusUrl
             [("page", 1)] 200 (VObj []) [OnData "{"; OnData "}"]
             [OnData "]"; OnError (Rejected "reset"); OnEnd] OnEnd)
    by reflexivity.
  reflexivity.
Defined.

Lemma loop_returns_pages_before_first_stop_witness :
  exists n,
    1 <= n <= 5
    /\ fetches (page_events Sample.statusesUrl 1 2
                  ++ [Sleep 1000]
                  ++ [ ConsoleLog (FetchingPage 2);
                       Fetch Sample.statusesUrl [("page", 2)];
                       ConsoleError
                         (ErrorFetchingPage 2 (Rejected "HTTP 500")) ])
       = match statusesUrl NT alice with
         | Ok url => page_requests url 1 n
         | Throw _ => []
         end
    /\ Sample.page1
       = flat_map (fun p => items_on (fetchPage NT flaky alice p))
           (seq 1 (n - 1))
    /\ (forall p, 1 <= p < n ->
                  last_page (fetchPage NT flaky alice p) = false)
    /\ last_page (fetchPage NT flaky alice n) = true.
Proof.
  apply (loop_returns_pages_before_first_stop NT flaky alice 5).
  reflexivity.
Defined.

Lemma one_second_between_pages_witness :
  exists pages final,
    Forall (fun items => items <> []) pages
    /\ (forall n items, nth_error pages n = Some items ->
                        page_items (fetchPage NT server alice (S n))
                        = Some items)
    /\ last_page (fetchPage NT server alice (S (List.length pages))) = true
    /\ page_events Sample.statusesUrl 1 2
         ++ [Sleep 1000] ++ page_events Sample.statusesUrl 2 0
       = match statusesUrl NT alice with
         | Ok url => pages_events url 1 pages
         | Throw _ => []
         end ++ final
    /\ hd_error final
       = Some (ConsoleLog (FetchingPage (S (List.length pages))))
    /\ sleeps final = []
    /\ sleeps (page_events Sample.statusesUrl 1 2
                 ++ [Sleep 1000] ++ page_events Sample.statusesUrl 2 0)
       = repeat 1000%Z (List.length pages).
Proof.
  apply (one_second_between_pages NT server alice 2 Sample.page1).
  reflexivity.
Defined.

Lemma one_entry_per_status_witness :
  exists doc entries,
    exportData Sample.userProfile Sample.page1
      (Some 1704448800000%Z) (Some 1707550200000%Z) 1704448800000 = Ok doc
    /\ get doc "data" = Ok (VArr entries)
    /\ List.length entries = 2
    /\ map (fun entry => get2 entry "status" "id") entries
       = [Ok (VNum 10); Ok (VNum 11)].
Proof.
  eexists.
  assert (H : exportData Sample.userProfile Sample.page1
                (Some 1704448800000%Z) (Some 1707550200000%Z) 1704448800000
              = Ok _) by (vm_compute; reflexivity).
  destruct (one_entry_per_status _ _ _ _ _ _ H) as (entries & Hd & Hl & _).
  exists entries. split; [ exact H | ]. split; [ exact Hd | ].
  split; [ exact Hl | ].
  cbn in Hd. injection Hd as <-. reflexivity.
Defined.

Lemma defaults_go_by_truthiness_witness :
  exists entry,
    transformStatus sparse = Ok entry
    /\ get2 entry "status" "body" = Ok (VStr "")
    /\ get2 entry "status" "tags" = Ok (VStr "night train")
    /\ get2 entry "trip" "stopovers" = Ok (VArr []).
Proof.
  eexists.
  assert (H : transformStatus sparse = Ok _) by (vm_compute; reflexivity).
  destruct (defaults_go_by_truthiness _ _ H) as (Hb & _ & Ht & Hs).
  split; [ exact H | ]. split; [ exact Hb | ]. split; [ exact Ht | exact Hs ].
Defined.

Lemma export_has_fixed_schema_witness :
  exists doc user,
    exportData Sample.userProfile [sparse]
      (Some 1704448800000%Z) (Some 1707550200000%Z) 1704448800000 = Ok doc
    /\ keys doc = ["meta"; "data"]
    /\ get2 doc "meta" "user" = Ok user
    /\ written_keys user
       = [ "id"; "displayName"; "username"; "trainDistance"; "totalDistance";
           "trainDuration"; "totalDuration"; "points"; "privateProfile";
           "pointsEnabled"; "userInvisibleToMe"; "muted"; "following";
           "followPending"; "followedBy" ].
Proof.
  eexists.
  assert (H : exportData Sample.userProfile [sparse]
                (Some 1704448800000%Z) (Some 1707550200000%Z) 1704448800000
              = Ok _) by (vm_compute; reflexivity).
  destruct (export_has_fixed_schema _ _ _ _ _ _ H)
    as (Hk & _ & meta & user & entries & Hm & Hu & _ & _ & _ & _ & Hw & _).
  exists user. split; [ exact H | ]. split; [ exact Hk | ].
  split; [ unfold get2; rewrite Hm; exact Hu | ].
  rewrite Hw. reflexivity.
Defined.

Lemma run_writes_one_file_or_none_witness :
  exists tr name,
    run NT DP LIMIT server 1704448800000 2 = Some tr
    /\ ToString NT alice = Ok name
    /\ ((Sample.page1 = [] /\ writes tr = [] /\ caught tr = [])
        \/ (Sample.page1 <> [] /\ caught tr = []
            /\ exists text, writes tr = [(name +++ "_statuses.json", text)])
        \/ (Sample.page1 <> [] /\ writes tr = []
            /\ exists e, caught tr = [e])).
Proof.
  apply (run_writes_one_file_or_none NT DP LIMIT server 1704448800000 2
           (fst (identify NT server))
           (page_events Sample.statusesUrl 1 2
              ++ [Sleep 1000] ++ page_events Sample.statusesUrl 2 0)
           Sample.userProfile alice Sample.page1);
    reflexivity.
Defined.

Lemma profile_failure_ends_run_witness :
  exists tr e,
    (forall fuel,
        run NT DP LIMIT (Sample.serve (Throw (Rejected "HTTP 401")) [])
          1704448800000 fuel = Some tr)
    /\ fetches tr = [(profileUrl, [])]
    /\ writes tr = [] /\ caught tr = [e] /\ sleeps tr = [].
Proof.
  apply (profile_failure_ends_run NT DP LIMIT
           (Sample.serve (Throw (Rejected "HTTP 401")) []) 1704448800000).
  reflexivity.
Defined.


Lemma invalid_date_stops_export_witness :
  exists tr,
    run NT DP LIMIT
      (Sample.serve (Ok Sample.userProfile)
         [Sample.paged (Sample.page1 ++ [sparse])])
      1704448800000 2 = Some tr
    /\ caught tr = [RangeError] /\ writes tr = [].
Proof.
  destruct (invalid_date_stops_export NT DP LIMIT
              (Sample.serve (Ok Sample.userProfile)
                 [Sample.paged (Sample.page1 ++ [sparse])])
              1704448800000 2
              (fst (identify NT server))
              (page_events Sample.statusesUrl 1 3
                 ++ [Sleep 1000] ++ page_events Sample.statusesUrl 2 0)
              Sample.userProfile alice (Sample.page1 ++ [sparse])
              [Some 1707550200000%Z; Some 1704448800000%Z; None])
    as [Hrun Hw]; [ reflexivity | reflexivity | reflexivity | | ].
  - cbn. tauto.
  - eexists. split; [ exact Hrun | ].
    split; [ vm_compute; reflexivity | apply Hw, Hrun ].
Defined.

Lemma run_never_ends_without_empty_page_witness :
  run NT DP LIMIT endless 1704448800000 1000 = None.
Proof.
  apply (run_never_ends_without_empty_page NT DP LIMIT endless 1704448800000
           (fst (identify NT endless)) Sample.userProfile alice).
  - reflexivity.
  - intros page. reflexivity.
Defined.

Lemma null_status_stops_export_witness :
  exists tr,
    run NT DP LIMIT
      (Sample.serve (Ok Sample.userProfile) [Sample.paged [VNull]])
      1704448800000 2 = Some tr
    /\ caught tr = [TypeError "createdAt"] /\ writes tr = [].
Proof.
  destruct (null_status_stops_export NT DP LIMIT
              (Sample.serve (Ok Sample.userProfile) [Sample.paged [VNull]])
              1704448800000 2
              (fst (identify NT server))
              (page_events Sample.statusesUrl 1 1
                 ++ [Sleep 1000] ++ page_events Sample.statusesUrl 2 0)
              Sample.userProfile alice [VNull])
    as (e & Hrun & _ & He & Hw); [ reflexivity | reflexivity | | ].
  - constructor. reflexivity.
  - assert (Ee : e = TypeError "createdAt")
      by (apply He; repeat constructor; discriminate).
    subst e. eexists. split; [ exact Hrun | ].
    split; [ reflexivity | apply Hw, Hrun ].
Defined.

(** The loop's oracle answering as [fetchJSON] does against a network
    that turns every request down with status 429. *)
Local Abbreviation limited :=
  (fun (url : string) (params : list (string * nat)) =>
     match awaited (snd (fetch url params
                           (Response 429 (VObj []) [OnData "{}"; OnEnd]))) with
     | Some r => r
     | None => Throw (Rejected "pending")
     end).

Lemma non_200_page_ends_loop_witness :
  paginate NT limited 1 alice 3 Sample.page1
  = Some (Sample.page1,
          [ ConsoleLog (FetchingPage 3);
            Fetch Sample.statusesUrl [("page", 3)];
            ConsoleError
              (ErrorFetchingPage 3
                 (Rejected
                    "HTTP 429 when fetching https://traewelling.de/api/v1/user/alice/statuses?page=3")) ]).
Proof.
  rewrite (non_200_page_ends_loop NT limited SampleNet.JSON_parse
             SampleNet.Buffer_toString SampleNet.token alice
             Sample.statusesUrl 3 429 (VObj []) [OnData "{}"; OnEnd]);
    [ reflexivity | reflexivity | discriminate | reflexivity ].
Defined.

(** The profile's [id] is an object with a [toString] property of its
    own. *)
Local Abbreviation unprintable :=
  (Sample.serve
     (Ok (VObj [("data",
                 VObj [("id", VObj [("toString", VNum 1)]);
                       ("username", VStr "alice")])]))
     [Sample.paged Sample.page1]).

Lemma unprintable_identity_ends_run_witness :
  exists tr,
    run NT DP LIMIT unprintable 1704448800000 0 = Some tr
    /\ run NT DP LIMIT unprintable 1704448800000 5 = Some tr
    /\ fetches tr = [(profileUrl, [])]
    /\ caught tr = [ConversionError]
    /\ writes tr = [].
Proof.
  destruct (unprintable_identity_ends_run NT DP LIMIT unprintable
              1704448800000
              (VObj [("id", VObj [("toString", VNum 1)]);
                     ("username", VStr "alice")]))
    as (up & _ & Hrun).
  - reflexivity.
  - left. eexists. reflexivity.
  - eexists. split; [ apply Hrun | ]. split; [ apply Hrun | ].
    repeat split.
Defined.

(** A status whose [createdAt] is an object with a [toString] property of
    its own: the date cannot be made, the [TypeError] ends the export after
    the sample line, before the date range, and no file is written. *)
Example unconvertible_createdAt_stops_export :
  exists tr,
    run NT DP LIMIT
      (Sample.serve (Ok Sample.userProfile)
         [Sample.paged
            [VObj [("id", VNum 12);
                   ("createdAt", VObj [("toString", VNum 1)])]]])
      1704448800000 2 = Some tr
    /\ caught tr = [ConversionError]
    /\ writes tr = []
    /\ filter statistics_line tr = [].
Proof.
  eexists. split; [ vm_compute; reflexivity | ]. repeat split.
Qed.

(** An unconvertible [createdAt] ahead of a [null] status: the map throws
    at the first of the two, with the error of the conversion. *)
Example unconvertible_createdAt_before_null :
  exists tr,
    run NT DP LIMIT
      (Sample.serve (Ok Sample.userProfile)
         [Sample.paged
            [VObj [("createdAt", VObj [("toString", VNum 1)])]; VNull]])
      1704448800000 2 = Some tr
    /\ caught tr = [ConversionError]
    /\ writes tr = [].
Proof.
  eexists. split; [ vm_compute; reflexivity | ]. repeat split.
Qed.

(** A user name that is an object without a [toString] of its own goes
    into the URL as the text of any object. *)
Example object_username_url :
  statusesUrl NT (VObj [("name", VStr "alice")])
  = Ok "https://traewelling.de/api/v1/user/[object Object]/statuses".
Proof. reflexivity. Qed.

(** Three dates, local time one hour ahead of UTC: the one at
    2024-01-31T23:30Z falls in February. *)
Example month_report_in_local_time :
  monthReport SampleNet.LocalTZA
    [ Some 1707550200000%Z; Some 1704448800000%Z; Some 1706743800000%Z ]
  = [("2024-01", 1); ("2024-02", 2)].
Proof. vm_compute. reflexivity. Qed.

End MoreSamples.
